(** * Traffic anomaly dashboard ([app.py]): loader, filter chain, anomaly deriver

    The script is a straight line of pandas statements.  The embedding keeps
    that shape: every statement that reads or assigns [data] or
    [filtered_data] is one binding of an error monad, in the order of the
    source.

    Modelling decisions
    - A table is a [DataFrame]: its column names in order and its rows, each
      row a list of cells aligned with the columns.  The row index that pandas
      carries is not modelled: every Series the script builds comes from the
      frame it is assigned to, so label alignment is positional.
    - A cell is a float64 number (NaN is pandas' missing value), a string (an
      entry of an object column) or a boolean.  The dtype of a column is read
      off its cells: a column of booleans only is a bool column.  A frame with
      no row carries no dtype; the statements about the deriver take a frame
      with a row, or the view of a base table.
    - An int64 column is represented by the float64 values of its entries.
      The difference of an int64 and a float64 column is taken by numpy at
      float64, as in the model.  The difference of two int64 columns is taken
      in int64; it is the binary64 difference as long as the entries are
      within 2^52, and the statements that give the value of a score carry
      that bound ([small_numbers]).
    - Floats are the kernel's binary64 floats, with the operations numpy uses.
    - The text-to-number conversion inside [pd.to_numeric] is a library
      routine; it is a parameter [parse] of the development.
    - [filtered_data["truth"].fillna(0, inplace=True)] fills a Series obtained
      by column access.  Whether the frame sees the fill depends on pandas:
      before 3.0 the Series aliases the frame's column ([WriteThrough]); with
      copy-on-write it is a private copy ([CopyOnWrite]).  Both are modelled.
    - The rendering calls between the blocks of the deriver (the map of lines
      62-79, the tables and charts of lines 96-138) only read
      [filtered_data], and may raise.  They are parameters [show_map] and
      [show_tables] of the deriver: the script goes on only when they
      return. *)

From Stdlib Require Import ZArith String List Bool Floats Uint63 Lia Permutation Sorted.
From stdpp Require Import base tactics option list.

Local Open Scope string_scope.
Local Open Scope list_scope.
Import ListNotations.

(** ** Exceptions and the error monad *)

Inductive exn : Type :=
| FileNotFoundError
| ParserError
| EmptyDataError
| KeyError (column : string)
| TypeError
| OtherError (class_name : string).

Inductive result (A : Type) : Type :=
| Ok (a : A)
| Raise (e : exn).
Arguments Ok {A} a.
Arguments Raise {A} e.

#[global] Instance result_bind : MBind result :=
  fun A B (k : A -> result B) (c : result A) =>
    match c with
    | Ok a => k a
    | Raise e => Raise e
    end.

Fixpoint mapM {A B : Type} (f : A -> result B) (l : list A) : result (list B) :=
  match l with
  | [] => Ok []
  | a :: l' => b ← f a; bs ← mapM f l'; Ok (b :: bs)
  end.

(** ** Cells *)

Inductive value : Type :=
| VFloat (f : float)
| VStr (s : string)
| VBool (b : bool).

(** pandas' missing value. *)
Definition NaN : value := VFloat nan.

(** [pd.isna] on one cell. *)
Definition isna (v : value) : bool :=
  match v with
  | VFloat f => is_nan f
  | _ => false
  end.

(** The number a cell stands for in a comparison: Python's [bool] is an
    integer, a string is not a number. *)
Definition num_of (v : value) : option float :=
  match v with
  | VFloat f => Some f
  | VBool b => Some (if b then 1%float else 0%float)
  | VStr _ => None
  end.

(** Python's [==] on two cells. *)
Definition value_eqb (a b : value) : bool :=
  match num_of a, num_of b with
  | Some x, Some y => (x =? y)%float
  | None, None =>
      match a, b with
      | VStr s, VStr t => String.eqb s t
      | _, _ => false
      end
  | _, _ => false
  end.

(** Python's [<] on two cells of the same kind (numbers by value, strings
    in dictionary order). *)
Definition value_ltb (a b : value) : bool :=
  match num_of a, num_of b with
  | Some x, Some y => (x <? y)%float
  | None, None =>
      match a, b with
      | VStr s, VStr t => String.ltb s t
      | _, _ => false
      end
  | _, _ => false
  end.

(** ** Frames *)

(** A row is the list of its cells. *)
Abbreviation row := (list value).

Record DataFrame : Type := mkDF {
  columns : list string;
  rows : list row
}.

(** Position of the first column called [name]. *)
Fixpoint col_index (name : string) (cols : list string) : option nat :=
  match cols with
  | [] => None
  | c :: cs => if String.eqb c name then Some 0 else S <$> col_index name cs
  end.

(** The cell of a row at a column position. *)
Definition cell (i : nat) (r : row) : value := nth i r NaN.

(** [df[name]]: the column as a Series, [KeyError] when there is none. *)
Definition get_col (name : string) (df : DataFrame) : result (list value) :=
  match col_index name (columns df) with
  | Some i => Ok (map (cell i) (rows df))
  | None => Raise (KeyError name)
  end.

(** [df[name] = s]: an existing column is overwritten in place, a new one is
    appended after the last column. *)
Definition set_col (name : string) (s : list value) (df : DataFrame) : DataFrame :=
  match col_index name (columns df) with
  | Some i => mkDF (columns df) (zip_with (fun r v => <[i:=v]> r) (rows df) s)
  | None => mkDF (columns df ++ [name]) (zip_with (fun r v => r ++ [v]) (rows df) s)
  end.

(** Positions of a boolean mask that are [True]. *)
Fixpoint select {A : Type} (mask : list bool) (l : list A) : list A :=
  match mask, l with
  | b :: mask', x :: l' => if b then x :: select mask' l' else select mask' l'
  | _, _ => []
  end.

(** [df[mask]]: a new frame (a copy) with the rows where the mask holds;
    later assignments to it do not reach [df]. *)
Definition bool_index (mask : list bool) (df : DataFrame) : DataFrame :=
  mkDF (columns df) (select mask (rows df)).

(** A frame is rectangular: every row has one cell per column. *)
Definition rectangular (df : DataFrame) : Prop :=
  Forall (fun r : row => length r = length (columns df)) (rows df).

Definition has_column (name : string) (df : DataFrame) : Prop :=
  is_Some (col_index name (columns df)).

(** ** Series operations *)

(** [Series.dropna()]. *)
Definition dropna (s : list value) : list value :=
  List.filter (fun v => negb (isna v)) s.

(** [Series.unique()]: first occurrences in order of appearance; [seen] is
    the hash table of the values met so far. *)
Fixpoint unique_from (seen s : list value) : list value :=
  match s with
  | [] => []
  | v :: s' =>
      if existsb (value_eqb v) seen then unique_from seen s'
      else v :: unique_from (v :: seen) s'
  end.

Definition unique (s : list value) : list value := unique_from [] s.

(** Numbers and strings do not compare with [<]. *)
Definition is_number (v : value) : bool :=
  match num_of v with Some _ => true | None => false end.

Definition comparable (l : list value) : bool :=
  forallb is_number l || forallb (fun v => negb (is_number v)) l.

Fixpoint insert_sorted (v : value) (l : list value) : list value :=
  match l with
  | [] => [v]
  | w :: l' => if value_ltb w v then w :: insert_sorted v l' else v :: w :: l'
  end.

Fixpoint sort_ascending (l : list value) : list value :=
  match l with
  | [] => []
  | v :: l' => insert_sorted v (sort_ascending l')
  end.

(** Python's [sorted]: ascending by [<]; a list that mixes numbers and
    strings raises [TypeError]. *)
Definition sorted (l : list value) : result (list value) :=
  if comparable l then Ok (sort_ascending l) else Raise TypeError.

(** [Series == v], where [None] is the value of a select box with no option. *)
Definition eq_mask (s : list value) (v : option value) : list bool :=
  map (fun c => match v with Some w => value_eqb c w | None => false end) s.

(** [fillna(fill)] on one cell and on a Series. *)
Definition fillna_value (fill : float) (v : value) : value :=
  if isna v then VFloat fill else v.

Definition fillna (fill : float) (s : list value) : list value :=
  map (fillna_value fill) s.

Definition is_bool (v : value) : bool :=
  match v with
  | VBool _ => true
  | _ => false
  end.

(** [a - b] on two cells: numpy has no subtraction of two booleans
    ([TypeError]); a boolean against a float counts as [1.0] or [0.0]; text
    does not subtract. *)
Definition sub_cells (a b : value) : result value :=
  match a, b with
  | VBool _, VBool _ => Raise TypeError
  | _, _ =>
      match num_of a, num_of b with
      | Some x, Some y => Ok (VFloat (x - y)%float)
      | _, _ => Raise TypeError
      end
  end.

(** [a - b] on two Series of one length. *)
Definition series_sub (a b : list value) : result (list value) :=
  mapM (fun xy : value * value => sub_cells xy.1 xy.2) (zip a b).

(** [abs] and [>] are applied to float64 Series only: to the difference just
    taken and to the score just assigned; any other cell is a [TypeError]. *)
Definition as_number (v : value) : result float :=
  match v with
  | VFloat f => Ok f
  | _ => Raise TypeError
  end.

Definition series_abs (a : list value) : result (list value) :=
  mapM (fun v => x ← as_number v; Ok (VFloat (abs x))) a.

(** [Series > t]. *)
Definition series_gt (a : list value) (t : float) : result (list value) :=
  mapM (fun v => x ← as_number v; Ok (VBool (t <? x)%float)) a.

(** ** The loader (lines 7-11) *)

(** What [pd.read_csv] finds at the fixed path: no file, a file it cannot
    read, with the exception it raises for it ([ParserError] for ragged rows,
    [EmptyDataError] for a file with no columns, another one for bytes it
    cannot decode), or a table. *)
Inductive file : Type :=
| Missing
| Unreadable (e : exn)
| Csv (table : DataFrame).

Definition read_csv (f : file) : result DataFrame :=
  match f with
  | Missing => Raise FileNotFoundError
  | Unreadable e => Raise e
  | Csv table => Ok table
  end.

(** [load_data] is [pd.read_csv] at the fixed path and nothing else;
    [st.cache_resource] hands the table it returned to every later run. *)
Definition load_data (f : file) : result DataFrame := read_csv f.

(** ** The sidebar and the filter chain (lines 21-45) *)

(** What the user sets in the sidebar: the position chosen in each select
    box, the two checkboxes and the slider. *)
Record controls : Type := mkControls {
  month_choice : nat;
  filter_day : bool;
  day_choice : nat;
  filter_hour : bool;
  hour_choice : nat;
  threshold : float
}.

(** [st.selectbox]: the option chosen, [None] when there is no option. *)
Definition selectbox (options : list value) (choice : nat) : option value :=
  options !! choice.

(** [sorted(df[name].dropna().unique())]. *)
Definition options_of (name : string) (df : DataFrame) : result (list value) :=
  s ← get_col name df; sorted (unique (dropna s)).

(** [df[df[name] == v]]. *)
Definition filter_eq (name : string) (v : option value) (df : DataFrame)
  : result DataFrame :=
  s ← get_col name df; Ok (bool_index (eq_mask s v) df).

(** What the sidebar offered and returned, and the view after line 42. *)
Record sidebar : Type := mkSidebar {
  month_options : list value;
  month : option value;
  day_options : option (list value);
  day_of_week : option value;
  hour_options : option (list value);
  hour : option value;
  view : DataFrame
}.

(** One optional step of the sidebar (lines 31-35 and 38-42): when the
    checkbox is ticked, the options come from the frame filtered so far and
    the frame is narrowed to the chosen one; otherwise the choice is [None]
    and the frame is left as it is. *)
Definition optional_filter (ticked : bool) (name : string) (choice : nat)
    (filtered_data : DataFrame)
  : result (option (list value) * option value * DataFrame) :=
  if ticked then
    options ← options_of name filtered_data;
    let chosen := selectbox options choice in
    filtered_data ← filter_eq name chosen filtered_data;
    Ok (Some options, chosen, filtered_data)
  else Ok (None, None, filtered_data).

Definition filter_chain (ui : controls) (data : DataFrame) : result sidebar :=
  month_options ← options_of "month" data;
  let month := selectbox month_options (month_choice ui) in
  filtered_data ← filter_eq "month" month data;
  d ← optional_filter (filter_day ui) "day_of_week" (day_choice ui) filtered_data;
  h ← optional_filter (filter_hour ui) "hour" (hour_choice ui) d.2;
  Ok (mkSidebar month_options month d.1.1 d.1.2 h.1.1 h.1.2 h.2).

(** ** The anomaly deriver (lines 51-60, 86-95, 139-143) *)

(** How a Series obtained by [df[name]] relates to the frame. *)
Inductive chained_access : Type :=
| WriteThrough   (* pandas before 3.0: the Series aliases the frame's column *)
| CopyOnWrite.   (* pandas 3.0: the Series is a copy of its own *)

Section Deriver.

(** The text-to-number conversion of [pd.to_numeric]: the number a string
    spells, [None] when it spells none. *)
Variable parse : string -> option float.

(** The rendering calls of lines 62-79 and of lines 96-138. *)
Variables show_map show_tables : DataFrame -> result unit.

(** [pd.to_numeric(_, errors="coerce")] on one cell of a column that is not a
    bool column: numbers are kept, text is converted, text that is no number
    becomes NaN, a boolean among other cells counts as [1.0] or [0.0]. *)
Definition to_numeric_value (v : value) : float :=
  match v with
  | VFloat f => f
  | VStr s => match parse s with Some f => f | None => nan end
  | VBool b => if b then 1%float else 0%float
  end.

(** [pd.to_numeric(_, errors="coerce")] on a Series: a bool column is
    returned as it is, any other column becomes a float64 Series. *)
Definition to_numeric (s : list value) : list value :=
  if forallb is_bool s then s
  else map (fun v => VFloat (to_numeric_value v)) s.

(** [filtered_data[name] = pd.to_numeric(filtered_data[name], errors="coerce")]. *)
Definition coerce_column (name : string) (df : DataFrame) : result DataFrame :=
  s ← get_col name df; Ok (set_col name (to_numeric s) df).

(** [filtered_data[name].fillna(0, inplace=True)]: the Series is filled in
    place; the frame's column is that Series only under [WriteThrough]. *)
Definition fillna_inplace (m : chained_access) (name : string) (df : DataFrame)
  : result DataFrame :=
  s ← get_col name df;
  let filled := fillna 0%float s in
  Ok (match m with
      | WriteThrough => set_col name filled df
      | CopyOnWrite => df
      end).

(** [abs(filtered_data["truth"] - filtered_data["predictions"])]. *)
Definition abs_error (df : DataFrame) : result (list value) :=
  t ← get_col "truth" df;
  p ← get_col "predictions" df;
  d ← series_sub t p;
  series_abs d.

(** Lines 51-57, and once more lines 86-92: both columns made numeric, then
    both filled. *)
Definition coerce (m : chained_access) (filtered_data : DataFrame)
  : result DataFrame :=
  filtered_data ← coerce_column "truth" filtered_data;
  filtered_data ← coerce_column "predictions" filtered_data;
  filtered_data ← fillna_inplace m "truth" filtered_data;
  fillna_inplace m "predictions" filtered_data.

(** Lines 51-60, and once more lines 86-95: the coercion, then the flag. *)
Definition flag_anomalies (m : chained_access) (threshold : float)
    (filtered_data : DataFrame) : result DataFrame :=
  filtered_data ← coerce m filtered_data;
  e ← abs_error filtered_data;
  anomaly ← series_gt e threshold;
  Ok (set_col "anomaly" anomaly filtered_data).

(** Lines 139-143. *)
Definition score_anomalies (threshold : float) (filtered_data : DataFrame)
  : result DataFrame :=
  anomaly_score ← abs_error filtered_data;
  let filtered_data := set_col "anomaly_score" anomaly_score filtered_data in
  s ← get_col "anomaly_score" filtered_data;
  anomaly ← series_gt s threshold;
  Ok (set_col "anomaly" anomaly filtered_data).

(** The deriver as the script runs it: the coercion and flagging block, the
    map, the block again, the tables and charts, then the score and the final
    flag. *)
Definition derive (m : chained_access) (threshold : float)
    (filtered_data : DataFrame) : result DataFrame :=
  filtered_data ← flag_anomalies m threshold filtered_data;
  _ ← show_map filtered_data;
  filtered_data ← flag_anomalies m threshold filtered_data;
  _ ← show_tables filtered_data;
  score_anomalies threshold filtered_data.

(** ** The script *)

(** The two frames the script names after line 143: [data] is the cached base
    table, [filtered_data] the table handed to the CSV export. *)
Record session : Type := mkSession {
  data : DataFrame;
  side : sidebar;
  filtered_data : DataFrame
}.

Definition app (m : chained_access) (f : file) (ui : controls) : result session :=
  data ← load_data f;
  side ← filter_chain ui data;
  filtered_data ← derive m (threshold ui) (view side);
  Ok (mkSession data side filtered_data).

End Deriver.

(** ** Vocabulary of the statements *)

(** The column names after an assignment to [name]. *)
Definition add_column (name : string) (cols : list string) : list string :=
  match col_index name cols with
  | Some _ => cols
  | None => cols ++ [name]
  end.

(** The cell of a row under a column name. *)
Definition field (df : DataFrame) (name : string) (r : row) : option value :=
  match col_index name (columns df) with
  | Some i => Some (cell i r)
  | None => None
  end.

(** A row has a value under [name] that is not missing. *)
Definition present (df : DataFrame) (name : string) (r : row) : Prop :=
  exists c, field df name r = Some c /\ isna c = false.

(** Whether the equality filter on [name] against [v] keeps a row of [df]. *)
Definition keeps (df : DataFrame) (name : string) (v : option value) (r : row) : bool :=
  match field df name r, v with
  | Some c, Some w => value_eqb c w
  | _, _ => false
  end.

(** The rows of [df] that the equality filter on [name] against [v] keeps,
    under the columns of [df]. *)
Definition narrowed (name : string) (v : option value) (df : DataFrame) : DataFrame :=
  mkDF (columns df) (List.filter (keeps df name v) (rows df)).

(** The base table narrowed to the month chosen, then to the day chosen when
    that filter is ticked, then to the hour chosen when that one is. *)
Definition month_table (data : DataFrame) (s : sidebar) : DataFrame :=
  narrowed "month" (month s) data.

Definition day_table (ui : controls) (data : DataFrame) (s : sidebar) : DataFrame :=
  if filter_day ui then narrowed "day_of_week" (day_of_week s) (month_table data s)
  else month_table data s.

Definition hour_table (ui : controls) (data : DataFrame) (s : sidebar) : DataFrame :=
  if filter_hour ui then narrowed "hour" (hour s) (day_table ui data s)
  else day_table ui data s.

(** No two entries are [==]. *)
Fixpoint distinct (l : list value) : bool :=
  match l with
  | [] => true
  | v :: l' => negb (existsb (value_eqb v) l') && distinct l'
  end.

(** [options] are the distinct values present under [name] in [df]: each
    option is the value of some row and is not missing, each value that is not
    missing is [==] to an option, and no two options are [==]. *)
Definition offers_exactly (options : list value) (name : string) (df : DataFrame)
  : Prop :=
  (forall o, o ∈ options ->
             isna o = false /\ exists r, r ∈ rows df /\ field df name r = Some o)
  /\ (forall r c, r ∈ rows df -> field df name r = Some c -> isna c = false ->
                  exists o, o ∈ options /\ value_eqb c o = true)
  /\ distinct options = true.

(** The entries of a column that are not missing are all numbers or all text,
    as in a column read from a CSV file. *)
Definition homogeneous (name : string) (df : DataFrame) : Prop :=
  exists s, get_col name df = Ok s /\ comparable (dropna s) = true.

(** A cell that [to_numeric] cannot read: a missing one, or text that spells
    no number. *)
Definition unreadable (parse : string -> option float) (c : value) : Prop :=
  isna c = true \/ exists s, c = VStr s /\ parse s = None.

(** The number a cell of a number or text column [truth] or [predictions]
    holds after lines 51-57: what [to_numeric] reads, with NaN replaced by [0]
    when the in-place fill reaches the frame. *)
Definition filled (m : chained_access) (f : float) : float :=
  match m with
  | WriteThrough => if is_nan f then 0%float else f
  | CopyOnWrite => f
  end.

Definition coerced (parse : string -> option float) (m : chained_access)
    (v : value) : float :=
  filled m (to_numeric_value parse v).

(** The score of one row and its flag. *)
Definition score (t p : float) : float := abs (t - p).

Definition flag (threshold t p : float) : bool := (threshold <? score t p)%float.

(** A rectangular frame whose [truth] and [predictions] hold the floats [t]
    and [p]. *)
Definition numeric_frame (df : DataFrame) (t p : list float) : Prop :=
  rectangular df
  /\ get_col "truth" df = Ok (map VFloat t)
  /\ get_col "predictions" df = Ok (map VFloat p).

(** A Series with no boolean cell. *)
Definition not_boolean (s : list value) : Prop :=
  Forall (fun c => is_bool c = false) s.

(** The column [name], when [df] has it, holds no boolean. *)
Definition no_boolean (name : string) (df : DataFrame) : Prop :=
  forall s, get_col name df = Ok s -> not_boolean s.

(** [df] has the column [name], and it holds numbers and text only, as a
    float64, an int64 or an object column read from a CSV file does. *)
Definition number_or_text (name : string) (df : DataFrame) : Prop :=
  has_column name df /\ no_boolean name df.

(** A number that is missing or at most 2^52 in magnitude. *)
Definition small (x : float) : bool :=
  is_nan x || (abs x <=? 4503599627370496)%float.

(** Every number that [to_numeric] reads in the column [name] is small.  The
    difference of two such numbers is the same in binary64 and in int64. *)
Definition small_numbers (parse : string -> option float) (name : string)
    (df : DataFrame) : Prop :=
  forall s, get_col name df = Ok s ->
            Forall (fun c => small (to_numeric_value parse c) = true) s.

(** The rendering calls return on the frame that lines 51-60 make of [df]. *)
Definition renders (parse : string -> option float) (m : chained_access)
    (threshold : float) (show_map show_tables : DataFrame -> result unit)
    (df : DataFrame) : Prop :=
  forall fd, flag_anomalies parse m threshold df = Ok fd ->
             show_map fd = Ok tt /\ show_tables fd = Ok tt.

(** The columns the specification requires of the input file. *)
Definition required_columns : list string :=
  ["month"; "day_of_week"; "hour"; "latitude_x"; "longitude_x"; "node_id";
   "spatial_cluster_x"; "grid_cluster_x"; "truth"; "predictions"].

(** The value of a run that returned, [d] for one that raised. *)
Definition value_or {A : Type} (c : result A) (d : A) : A :=
  match c with
  | Ok a => a
  | Raise _ => d
  end.

(** ** Sample inputs *)

Fixpoint digits (s : string) (acc : Z) : option Z :=
  match s with
  | EmptyString => Some acc
  | String c s' =>
      let n := Z.of_nat (Ascii.nat_of_ascii c) in
      if ((48 <=? n) && (n <=? 57))%Z then digits s' (10 * acc + (n - 48))%Z
      else None
  end.

(** A text-to-number conversion for the examples: unsigned decimal integers. *)
Definition decimal (s : string) : option float :=
  match s with
  | EmptyString => None
  | _ => match digits s 0 with
         | Some z => Some (of_uint63 (Uint63.of_Z z))
         | None => None
         end
  end.

Definition sample : DataFrame :=
  mkDF ["node_id"; "month"; "day_of_week"; "hour"; "truth"; "predictions"]
    [ [VFloat 1; VFloat 6; VFloat 1; VFloat 8; VFloat 5; VFloat 2];
      [VFloat 2; VFloat 6; VFloat 2; VFloat 9; VStr "N/A"; VStr "4"];
      [VFloat 3; VFloat 7; VFloat 1; VFloat 8; NaN; VFloat 2.5];
      [VFloat 4; NaN; VFloat 1; VFloat 8; VFloat 1; VFloat 1];
      [VFloat 5; VFloat 6; VFloat 1; VFloat 9; VFloat 3; VFloat 0.5] ].

(** A file that has every required column but [month]. *)
Definition sample_no_month : DataFrame :=
  mkDF ["day_of_week"; "hour"; "latitude_x"; "longitude_x"; "node_id";
        "spatial_cluster_x"; "grid_cluster_x"; "truth"; "predictions"]
    [ [VFloat 1; VFloat 8; VFloat 40.5; VFloat (-74); VFloat 1;
       VFloat 0; VFloat 3; VFloat 5; VFloat 2] ].

(** A file with the key columns and [predictions], without [truth]. *)
Definition sample_no_truth : DataFrame :=
  mkDF ["month"; "day_of_week"; "hour"; "predictions"]
    [ [VFloat 6; VFloat 1; VFloat 8; VFloat 2] ].

(** A file with the key columns and [truth], without [predictions]. *)
Definition sample_no_predictions : DataFrame :=
  mkDF ["month"; "day_of_week"; "hour"; "truth"]
    [ [VFloat 6; VFloat 1; VFloat 8; VFloat 5] ].


(** A view whose [truth] and [predictions] are bool columns. *)
Definition sample_booleans : DataFrame :=
  mkDF ["truth"; "predictions"] [ [VBool true; VBool false] ].

(** A view with a missing [truth]. *)
Definition sample_missing_truth : DataFrame :=
  mkDF ["truth"; "predictions"] [ [NaN; VFloat 9] ].

(** Rendering calls that return. *)
Definition quiet (fd : DataFrame) : result unit := Ok tt.

(** Month 6, no other filter, threshold 2. *)
Definition june : controls := mkControls 0 false 0 false 0 2.

(** Month 6, day 1, hour 9, threshold 3. *)
Definition june_day1_hour9 : controls := mkControls 0 true 0 true 1 3.

(** A month selector that returns nothing, both other filters ticked. *)
Definition nothing_chosen : controls := mkControls 5 true 0 true 0 2.

Definition no_sidebar : sidebar := mkSidebar [] None None None None None sample.

Definition june_session : session :=
  value_or (app decimal quiet quiet WriteThrough (Csv sample) june)
           (mkSession sample no_sidebar sample).

Definition june_day1_hour9_sidebar : sidebar :=
  value_or (filter_chain june_day1_hour9 sample) no_sidebar.

(** ** The anomaly table and its summary (lines 97-107) *)

(** A cell of a boolean mask.  Line 95 has just assigned [anomaly] a boolean
    Series, so no other kind of cell reaches line 97 (pandas would read such
    a key as column labels); in the model it is a [TypeError]. *)
Definition as_bool (v : value) : result bool :=
  match v with
  | VBool b => Ok b
  | _ => Raise TypeError
  end.

(** Line 97, [anomalies = filtered_data[filtered_data["anomaly"]]]: the rows
    the flag column marks, as a new frame. *)
Definition anomalies_of (filtered_data : DataFrame) : result DataFrame :=
  s ← get_col "anomaly" filtered_data;
  mask ← mapM as_bool s;
  Ok (bool_index mask filtered_data).

(** The position of a listed column, [KeyError] when it is not a column. *)
Definition position_of (cols : list string) (n : string) : result nat :=
  match col_index n cols with
  | Some i => Ok i
  | None => Raise (KeyError n)
  end.

(** [df[[name; ...]]]: the listed columns in the listed order, [KeyError]
    when one is not a column (pandas names every missing label, the model the
    first). *)
Definition select_columns (names : list string) (df : DataFrame) : result DataFrame :=
  positions ← mapM (position_of (columns df)) names;
  Ok (mkDF names (map (fun r => map (fun i => cell i r) positions) (rows df))).

(** The columns of the table under "Anomaly Details" (line 98). *)
Definition detail_columns : list string :=
  ["node_id"; "spatial_cluster_x"; "grid_cluster_x"; "truth"; "predictions";
   "hour"; "month"; "day_of_week"].

Definition anomaly_details (anomalies : DataFrame) : result DataFrame :=
  select_columns detail_columns anomalies.

(** The keys of [groupby]: the distinct values that are not missing, sorted;
    when numbers and text are mixed pandas puts the numbers first. *)
Definition group_keys (s : list value) : list value :=
  let u := unique (dropna s) in
  sort_ascending (List.filter is_number u)
  ++ sort_ascending (List.filter (fun v => negb (is_number v)) u).

(** [groupby(...).size()]: each key with the number of entries [==] to it. *)
Definition group_sizes (s : list value) : list (value * nat) :=
  map (fun k => (k, length (List.filter (fun c => value_eqb c k) s))) (group_keys s).

(** Line 107: the rows (cluster, anomaly_count) of [anomaly_summary]. *)
Definition anomaly_summary (anomalies : DataFrame) : result (list (value * nat)) :=
  s ← get_col "spatial_cluster_x" anomalies; Ok (group_sizes s).

(** ** Vocabulary of the further statements *)

(** A row of [df] that all active equality filters keep. *)
Definition matches (ui : controls) (df : DataFrame) (s : sidebar) (r : row) : bool :=
  keeps df "month" (month s) r
  && (if filter_day ui then keeps df "day_of_week" (day_of_week s) r else true)
  && (if filter_hour ui then keeps df "hour" (hour s) r else true).

(** A row whose [anomaly] cell is [True]. *)
Definition flagged (df : DataFrame) (r : row) : bool :=
  match field df "anomaly" r with
  | Some (VBool true) => true
  | _ => false
  end.

(** Never a larger value before a smaller one. *)
Definition not_after (a b : value) : Prop := value_ltb b a = false.

(** A table with every column the anomaly table shows. *)
Definition sample_nodes : DataFrame :=
  mkDF ["node_id"; "spatial_cluster_x"; "grid_cluster_x"; "month"; "day_of_week";
        "hour"; "truth"; "predictions"]
    [ [VFloat 1; VFloat 0; VFloat 3; VFloat 6; VFloat 1; VFloat 8; VFloat 5; VFloat 2];
      [VFloat 2; VFloat 1; VFloat 3; VFloat 6; VFloat 2; VFloat 9; VStr "N/A"; VFloat 4];
      [VFloat 3; VFloat 0; VFloat 4; VFloat 6; VFloat 1; VFloat 8; VFloat 7; VFloat 2.5];
      [VFloat 4; NaN; VFloat 4; VFloat 6; VFloat 1; VFloat 9; VFloat 9; VFloat 1];
      [VFloat 5; VFloat 1; VFloat 5; VFloat 6; VFloat 1; VFloat 9; VFloat 3; VFloat 2.5] ].

(** The frame of [sample_nodes] after lines 51-60 at threshold 2. *)
Definition sample_nodes_flagged : DataFrame :=
  value_or (flag_anomalies decimal WriteThrough 2 sample_nodes) sample_nodes.

(** A base table that has no [day_of_week] and no [hour] column. *)
Definition sample_month_only : DataFrame :=
  mkDF ["month"; "truth"; "predictions"]
    [ [VFloat 6; VFloat 5; VFloat 2]; [VFloat 7; VFloat 1; VFloat 1] ].

Definition nothing_chosen_sidebar : sidebar :=
  value_or (filter_chain nothing_chosen sample) no_sidebar.

(** * Properties *)

(** ** The error monad *)

Lemma bind_Ok_l {A B : Type} (a : A) (k : A -> result B) : Ok a ≫= k = k a.
Proof. reflexivity. Qed.

Lemma bind_Ok {A B : Type} (c : result A) (k : A -> result B) (b : B) :
  c ≫= k = Ok b -> exists a, c = Ok a /\ k a = Ok b.
Proof. destruct c as [a | e]; simpl; [eauto | discriminate]. Qed.

(** Splits a run that returned into its first statement and the rest. *)
Ltac bind_inv H x Hx := apply bind_Ok in H as (x & Hx & H).

(** ** Comparisons of binary64 floats *)

Lemma SFcompare_self (x : spec_float) :
  SFcompare x x = None \/ SFcompare x x = Some Eq.
Proof.
  destruct x as [s | s | | s m e]; simpl; auto.
  - destruct s; auto.
  - right. rewrite Z.compare_refl, Pos.compare_cont_refl. destruct s; reflexivity.
Qed.

Lemma SFeqb_true (x y : spec_float) :
  SFeqb x y = true ->
  (exists s t, x = S754_zero s /\ y = S754_zero t) \/ (x = y /\ x <> S754_nan).
Proof.
  unfold SFeqb.
  destruct x as [s | s | | s m e], y as [t | t | | t n e']; simpl;
    try discriminate; try (destruct s; discriminate); try (destruct t; discriminate).
  - eauto.
  - destruct s, t; try discriminate; intros _; right; split; congruence.
  - destruct s, t; try discriminate;
      destruct (Z.compare_spec e e'); try discriminate;
      destruct (Pos.compare_cont Eq m n) eqn:Hm; try discriminate;
      apply Pos.compare_eq in Hm; intros _; right; split; congruence.
Qed.

Lemma SFeqb_refl (x : spec_float) : x <> S754_nan -> SFeqb x x = true.
Proof.
  intros Hx. unfold SFeqb. destruct (SFcompare_self x) as [H | H]; rewrite H; auto.
  destruct x; simpl in H; try discriminate; congruence.
Qed.

Lemma float_eqb_sym (x y : float) : (x =? y)%float = true -> (y =? x)%float = true.
Proof.
  rewrite !FloatAxioms.eqb_spec. intros H.
  destruct (SFeqb_true _ _ H) as [(s & t & -> & ->) | [-> Hn]].
  - reflexivity.
  - now apply SFeqb_refl.
Qed.

Lemma float_eqb_not_nan (x y : float) : (x =? y)%float = true -> is_nan x = false.
Proof.
  unfold is_nan. rewrite !FloatAxioms.eqb_spec. intros H.
  destruct (SFeqb_true _ _ H) as [(s & t & -> & _) | [_ Hn]]; [reflexivity |].
  now rewrite SFeqb_refl.
Qed.

Lemma float_ltb_irrefl (x : float) : (x <? x)%float = false.
Proof.
  rewrite FloatAxioms.ltb_spec. unfold SFltb.
  destruct (SFcompare_self (Prim2SF x)) as [H | H]; now rewrite H.
Qed.

Lemma float_eqb_not_ltb (x y : float) :
  (x =? y)%float = true -> (x <? y)%float = false.
Proof.
  rewrite FloatAxioms.eqb_spec, FloatAxioms.ltb_spec. unfold SFeqb, SFltb.
  now destruct (SFcompare (Prim2SF x) (Prim2SF y)) as [[] |].
Qed.

(** ** Python's [==] on cells *)

Lemma value_eqb_refl (v : value) : isna v = false -> value_eqb v v = true.
Proof.
  destruct v as [f | s | []]; try reflexivity.
  - unfold value_eqb, isna, is_nan. simpl. now intros ->%negb_false_iff.
  - intros _. unfold value_eqb. simpl. apply String.eqb_refl.
Qed.

Lemma value_eqb_sym (a b : value) : value_eqb a b = true -> value_eqb b a = true.
Proof.
  unfold value_eqb.
  destruct (num_of a) as [x |] eqn:Ha, (num_of b) as [y |] eqn:Hb; try discriminate.
  - apply float_eqb_sym.
  - destruct a, b; try discriminate. now rewrite String.eqb_sym.
Qed.

Lemma value_eqb_false_sym (a b : value) :
  value_eqb a b = false -> value_eqb b a = false.
Proof.
  intros H. destruct (value_eqb b a) eqn:Hba; [| reflexivity].
  apply value_eqb_sym in Hba. congruence.
Qed.

Lemma value_eqb_not_na (a b : value) : value_eqb a b = true -> isna a = false.
Proof.
  unfold value_eqb. destruct a as [f | s | c]; simpl; try reflexivity.
  destruct (num_of b); [| discriminate]. apply float_eqb_not_nan.
Qed.

(** ** Column positions *)

Lemma col_index_lookup (name : string) (cols : list string) (i : nat) :
  col_index name cols = Some i -> cols !! i = Some name.
Proof.
  revert i. induction cols as [| c cs IH]; intros i; simpl; [discriminate |].
  destruct (String.eqb_spec c name) as [-> | Hne].
  - intros [= <-]. reflexivity.
  - destruct (col_index name cs) as [j |]; simpl; [| discriminate].
    intros [= <-]. simpl. auto.
Qed.

Lemma col_index_lt (name : string) (cols : list string) (i : nat) :
  col_index name cols = Some i -> i < length cols.
Proof. intros H. eapply lookup_lt_Some, col_index_lookup, H. Qed.

Lemma col_index_inj (n k : string) (cols : list string) (i : nat) :
  col_index n cols = Some i -> col_index k cols = Some i -> n = k.
Proof. intros Hn Hk. apply col_index_lookup in Hn, Hk. congruence. Qed.

Lemma col_index_app_some (name k : string) (cols : list string) (i : nat) :
  col_index name cols = Some i -> col_index name (cols ++ [k]) = Some i.
Proof.
  revert i. induction cols as [| c cs IH]; intros i; simpl; [discriminate |].
  destruct (String.eqb c name); [auto |].
  destruct (col_index name cs) as [j |]; simpl; [| discriminate].
  intros [= <-]. now rewrite (IH j).
Qed.

Lemma col_index_app_new (name : string) (cols : list string) :
  col_index name cols = None -> col_index name (cols ++ [name]) = Some (length cols).
Proof.
  induction cols as [| c cs IH]; simpl.
  - now rewrite String.eqb_refl.
  - destruct (String.eqb c name); [discriminate |].
    destruct (col_index name cs); simpl; [discriminate |].
    intros _. now rewrite IH.
Qed.

Lemma col_index_app_other (name k : string) (cols : list string) :
  name <> k -> col_index name cols = None -> col_index name (cols ++ [k]) = None.
Proof.
  intros Hne. induction cols as [| c cs IH]; simpl.
  - destruct (String.eqb_spec k name); [congruence | auto].
  - destruct (String.eqb c name); [discriminate |].
    destruct (col_index name cs); simpl; [discriminate |].
    intros _. now rewrite IH.
Qed.

Lemma col_index_elem_of (name : string) (cols : list string) :
  is_Some (col_index name cols) <-> name ∈ cols.
Proof.
  split.
  - intros [i Hi]. eapply list_elem_of_lookup_2, col_index_lookup, Hi.
  - induction 1 as [c cs | c d cs _ IH]; simpl.
    + rewrite String.eqb_refl. eauto.
    + destruct (String.eqb d c); [eauto |]. destruct IH as [j ->]. simpl. eauto.
Qed.

Lemma add_column_present (name : string) (cols : list string) :
  is_Some (col_index name cols) -> add_column name cols = cols.
Proof. unfold add_column. now intros [i ->]. Qed.

Lemma elem_of_add_column (n name : string) (cols : list string) :
  n ∈ add_column name cols <-> n = name \/ n ∈ cols.
Proof.
  unfold add_column. destruct (col_index name cols) as [i |] eqn:Hi.
  - split; [auto |]. intros [-> | H]; [| auto].
    apply col_index_elem_of. eauto.
  - rewrite elem_of_app, list_elem_of_singleton. tauto.
Qed.

(** ** Cells of updated rows *)

Lemma cell_insert_eq (i : nat) (v : value) (r : row) :
  i < length r -> cell i (<[i:=v]> r) = v.
Proof.
  intros Hi. unfold cell. rewrite nth_lookup, list_lookup_insert_eq; auto.
Qed.

Lemma cell_insert_ne (i j : nat) (v : value) (r : row) :
  i <> j -> cell j (<[i:=v]> r) = cell j r.
Proof.
  intros Hij. unfold cell. rewrite !nth_lookup, list_lookup_insert_ne; auto.
Qed.

Lemma cell_app_new (v : value) (r : row) : cell (length r) (r ++ [v]) = v.
Proof. unfold cell. rewrite nth_lookup, lookup_app_r, Nat.sub_diag; auto. Qed.

Lemma cell_app_old (j : nat) (v : value) (r : row) :
  j < length r -> cell j (r ++ [v]) = cell j r.
Proof. intros Hj. unfold cell. rewrite !nth_lookup, lookup_app_l; auto. Qed.

Lemma insert_cell_id (i : nat) (r : row) : i < length r -> <[i:=cell i r]> r = r.
Proof.
  intros Hi. apply list_insert_id. unfold cell. rewrite nth_lookup.
  destruct (lookup_lt_is_Some_2 r i Hi) as [x ->]. reflexivity.
Qed.

(** ** Lists *)

Lemma lookup_map {A B : Type} (f : A -> B) (l : list A) (k : nat) :
  map f l !! k = f <$> l !! k.
Proof. revert k. induction l as [| x l IH]; intros [| k]; simpl; auto. Qed.

Lemma elem_of_map {A B : Type} (f : A -> B) (l : list A) (y : B) :
  y ∈ map f l <-> exists x, f x = y /\ x ∈ l.
Proof.
  rewrite list_elem_of_In, in_map_iff.
  split; intros (x & H1 & H2); exists x; split; auto; now apply list_elem_of_In.
Qed.

Lemma elem_of_filter {A : Type} (f : A -> bool) (l : list A) (x : A) :
  x ∈ List.filter f l <-> x ∈ l /\ f x = true.
Proof. rewrite !list_elem_of_In. apply filter_In. Qed.

Lemma map_fixed {A : Type} (f : A -> A) (l : list A) :
  Forall (fun x => f x = x) l -> map f l = l.
Proof. induction 1 as [| x l Hx _ IH]; cbn [map]; congruence. Qed.

Lemma map_zip_with_rows {B : Type} (P : row -> Prop) (f h : row -> B)
    (g : row -> value -> row) (l : list row) (s : list value) :
  length s = length l ->
  (forall r v, P r -> f (g r v) = h r) ->
  Forall P l -> map f (zip_with g l s) = map h l.
Proof.
  intros Hlen Hf Hl. revert s Hlen.
  induction Hl as [| r l Hr _ IH]; intros [| v s] Hlen; simpl in *; try lia; auto.
  rewrite Hf, IH; auto.
Qed.

Lemma map_zip_with_series (P : row -> Prop) (f : row -> value)
    (g : row -> value -> row) (l : list row) (s : list value) :
  length s = length l ->
  (forall r v, P r -> f (g r v) = v) ->
  Forall P l -> map f (zip_with g l s) = s.
Proof.
  intros Hlen Hf Hl. revert s Hlen.
  induction Hl as [| r l Hr _ IH]; intros [| v s] Hlen; simpl in *; try lia; auto.
  rewrite Hf, IH; auto.
Qed.

Lemma select_map {A : Type} (f : A -> bool) (l : list A) :
  select (map f l) l = List.filter f l.
Proof. induction l as [| x l IH]; simpl; [reflexivity |]. now rewrite IH. Qed.

Lemma filter_filter_comm {A : Type} (f g : A -> bool) (l : list A) :
  List.filter f (List.filter g l) = List.filter g (List.filter f l).
Proof.
  induction l as [| x l IH]; simpl; [reflexivity |].
  destruct (f x) eqn:Hf, (g x) eqn:Hg; simpl; rewrite ?Hf, ?Hg, IH; reflexivity.
Qed.

Lemma filter_sublist {A : Type} (f : A -> bool) (l : list A) :
  sublist (List.filter f l) l.
Proof.
  induction l as [| x l IH]; simpl; [constructor |].
  destruct (f x); now constructor.
Qed.

(** ** Reading and assigning columns *)

Lemma get_col_length (name : string) (df : DataFrame) (s : list value) :
  get_col name df = Ok s -> length s = length (rows df).
Proof.
  unfold get_col. destruct (col_index name (columns df)); [| discriminate].
  intros [= <-]. apply length_map.
Qed.

Lemma has_column_get_col (name : string) (df : DataFrame) :
  has_column name df -> exists s, get_col name df = Ok s.
Proof. intros [i Hi]. unfold get_col. rewrite Hi. eauto. Qed.

Lemma get_col_has_column (name : string) (df : DataFrame) (s : list value) :
  get_col name df = Ok s -> has_column name df.
Proof.
  unfold get_col, has_column.
  destruct (col_index name (columns df)); [eauto | discriminate].
Qed.

Lemma get_col_missing (name : string) (df : DataFrame) :
  ~ has_column name df -> get_col name df = Raise (KeyError name).
Proof.
  unfold get_col, has_column. destruct (col_index name (columns df)); [| auto].
  intros []. eauto.
Qed.

Lemma get_col_field (name : string) (df : DataFrame) (s : list value) (k : nat)
    (r : row) :
  get_col name df = Ok s -> rows df !! k = Some r -> field df name r = s !! k.
Proof.
  unfold get_col, field. destruct (col_index name (columns df)); [| discriminate].
  intros [= <-] Hk. now rewrite lookup_map, Hk.
Qed.

Lemma get_col_elem_of (name : string) (df : DataFrame) (s : list value) (c : value) :
  get_col name df = Ok s ->
  c ∈ s <-> exists r, r ∈ rows df /\ field df name r = Some c.
Proof.
  unfold get_col, field.
  destruct (col_index name (columns df)) as [i |]; [| discriminate].
  intros [= <-]. rewrite elem_of_map. split.
  - intros (r & <- & Hr). eauto.
  - intros (r & Hr & [= <-]). eauto.
Qed.

Lemma columns_set_col (name : string) (s : list value) (df : DataFrame) :
  columns (set_col name s df) = add_column name (columns df).
Proof. unfold set_col, add_column. now destruct (col_index name (columns df)). Qed.

Lemma length_rows_set_col (name : string) (s : list value) (df : DataFrame) :
  length s = length (rows df) -> length (rows (set_col name s df)) = length (rows df).
Proof.
  intros Hlen. unfold set_col.
  destruct (col_index name (columns df)); simpl; rewrite length_zip_with; lia.
Qed.

Lemma rectangular_set_col (name : string) (s : list value) (df : DataFrame) :
  rectangular df -> rectangular (set_col name s df).
Proof.
  unfold rectangular, set_col. intros Hr.
  destruct (col_index name (columns df)) as [i |]; simpl.
  - revert s. induction Hr as [| r l Hr _ IH]; intros [| v s]; simpl; constructor; auto.
    now rewrite length_insert.
  - revert s. induction Hr as [| r l Hr _ IH]; intros [| v s]; simpl; constructor; auto.
    rewrite !length_app. simpl. lia.
Qed.

Lemma get_col_set_col_eq (name : string) (s : list value) (df : DataFrame) :
  rectangular df -> length s = length (rows df) ->
  get_col name (set_col name s df) = Ok s.
Proof.
  intros Hr Hlen. unfold get_col, set_col.
  destruct (col_index name (columns df)) as [i |] eqn:Hi; simpl.
  - rewrite Hi. f_equal.
    apply map_zip_with_series with (P := fun r => length r = length (columns df)); auto.
    intros r v Hrl. apply cell_insert_eq. rewrite Hrl. eapply col_index_lt, Hi.
  - rewrite col_index_app_new by assumption. f_equal.
    apply map_zip_with_series with (P := fun r => length r = length (columns df)); auto.
    intros r v <-. apply cell_app_new.
Qed.

Lemma get_col_set_col_ne (n name : string) (s : list value) (df : DataFrame) :
  n <> name -> rectangular df -> length s = length (rows df) ->
  get_col n (set_col name s df) = get_col n df.
Proof.
  intros Hne Hr Hlen. unfold get_col, set_col.
  destruct (col_index name (columns df)) as [i |] eqn:Hi; simpl.
  - destruct (col_index n (columns df)) as [j |] eqn:Hj; [| reflexivity]. f_equal.
    apply map_zip_with_rows with (P := fun _ => True); auto.
    + intros r v _. apply cell_insert_ne. intros ->. eauto using col_index_inj.
    + now apply Forall_true.
  - destruct (col_index n (columns df)) as [j |] eqn:Hj.
    + rewrite (col_index_app_some _ _ _ _ Hj). f_equal.
      apply map_zip_with_rows with (P := fun r => length r = length (columns df)); auto.
      intros r v Hrl. apply cell_app_old. rewrite Hrl. eapply col_index_lt, Hj.
    + now rewrite col_index_app_other.
Qed.

(** Assigning to a column the Series it already holds changes nothing. *)
Lemma set_col_id (name : string) (s : list value) (df : DataFrame) :
  rectangular df -> get_col name df = Ok s -> set_col name s df = df.
Proof.
  intros Hr. unfold get_col, set_col.
  destruct (col_index name (columns df)) as [i |] eqn:Hi; [| discriminate].
  intros [= <-]. destruct df as [cols rws]. simpl in *. f_equal.
  assert (Hi' : i < length cols) by eauto using col_index_lt.
  unfold rectangular in Hr. simpl in Hr.
  induction Hr as [| r l Hrl _ IH]; simpl; [reflexivity |].
  rewrite insert_cell_id by lia. now rewrite IH.
Qed.

(** What one assignment [df[name] = s] does, as seen through [get_col]. *)
Lemma set_col_step (name : string) (s : list value) (df : DataFrame) :
  rectangular df -> length s = length (rows df) ->
  rectangular (set_col name s df)
  /\ length (rows (set_col name s df)) = length (rows df)
  /\ get_col name (set_col name s df) = Ok s
  /\ (forall n, n <> name -> get_col n (set_col name s df) = get_col n df).
Proof.
  intros Hr Hlen. split; [now apply rectangular_set_col |].
  split; [now apply length_rows_set_col |].
  split; [now apply get_col_set_col_eq |].
  intros n Hn. now apply get_col_set_col_ne.
Qed.

Lemma sublist_rectangular (df df' : DataFrame) :
  columns df' = columns df -> sublist (rows df') (rows df) ->
  rectangular df -> rectangular df'.
Proof.
  unfold rectangular. intros -> Hs Hr. rewrite Forall_forall in *.
  intros r Hin. eapply Hr, elem_of_sublist; eassumption.
Qed.

(** ** Arithmetic on float64 Series *)

Lemma series_sub_floats (a b : list float) :
  series_sub (map VFloat a) (map VFloat b)
  = Ok (map VFloat (zip_with (fun x y => (x - y)%float) a b)).
Proof.
  unfold series_sub. revert b.
  induction a as [| x a IH]; intros [| y b]; simpl; try reflexivity.
  specialize (IH b). simpl in IH. now rewrite IH.
Qed.

Lemma series_abs_floats (a : list float) :
  series_abs (map VFloat a) = Ok (map VFloat (map abs a)).
Proof.
  unfold series_abs. induction a as [| x a IH]; simpl; [reflexivity |].
  now rewrite IH.
Qed.

Lemma series_gt_floats (a : list float) (t : float) :
  series_gt (map VFloat a) t = Ok (map VBool (map (fun x => (t <? x)%float) a)).
Proof.
  unfold series_gt. induction a as [| x a IH]; simpl; [reflexivity |].
  now rewrite IH.
Qed.

Lemma filled_idem (m : chained_access) (f : float) :
  filled m (filled m f) = filled m f.
Proof.
  destruct m; simpl; [| reflexivity].
  destruct (is_nan f) eqn:Hf; [reflexivity | now rewrite Hf].
Qed.

Lemma fillna_floats (l : list float) :
  fillna 0 (map VFloat l) = map VFloat (map (filled WriteThrough) l).
Proof.
  unfold fillna. rewrite !map_map. apply map_ext. intros f.
  unfold fillna_value. simpl. now destruct (is_nan f).
Qed.

Lemma abs_error_floats (df : DataFrame) (t p : list float) :
  numeric_frame df t p ->
  abs_error df = Ok (map VFloat (zip_with score t p)).
Proof.
  intros (_ & Ht & Hp). unfold abs_error.
  rewrite Ht, bind_Ok_l, Hp, bind_Ok_l, series_sub_floats, bind_Ok_l, series_abs_floats.
  do 2 f_equal. clear. revert p.
  induction t as [| x t IH]; intros [| y p]; simpl; try reflexivity.
  now rewrite IH.
Qed.

Lemma numeric_frame_lengths (df : DataFrame) (t p : list float) :
  numeric_frame df t p ->
  length t = length (rows df) /\ length p = length (rows df).
Proof.
  intros (_ & Ht & Hp).
  apply get_col_length in Ht, Hp. rewrite length_map in Ht, Hp. auto.
Qed.

Lemma numeric_frame_set_col (name : string) (s : list value) (df : DataFrame)
    (t p : list float) :
  name <> "truth" -> name <> "predictions" ->
  length s = length (rows df) ->
  numeric_frame df t p -> numeric_frame (set_col name s df) t p.
Proof.
  intros Hnt Hnp Hlen (Hr & Ht & Hp).
  destruct (set_col_step name s df Hr Hlen) as (Hr' & _ & _ & Ho).
  split; [assumption |]. rewrite !Ho by congruence. auto.
Qed.

(** [filtered_data[name].fillna(0, inplace=True)] on a float64 column. *)
Lemma fillna_inplace_step (m : chained_access) (name : string) (l : list float)
    (df : DataFrame) :
  rectangular df -> get_col name df = Ok (map VFloat l) ->
  exists df',
    fillna_inplace m name df = Ok df'
    /\ rectangular df'
    /\ length (rows df') = length (rows df)
    /\ columns df' = columns df
    /\ get_col name df' = Ok (map VFloat (map (filled m) l))
    /\ (forall n, n <> name -> get_col n df' = get_col n df).
Proof.
  intros Hr Hg. unfold fillna_inplace. rewrite Hg, bind_Ok_l.
  destruct m; eexists; (split; [reflexivity |]).
  - assert (Hlen : length (fillna 0 (map VFloat l)) = length (rows df)).
    { unfold fillna. rewrite length_map. eapply get_col_length, Hg. }
    destruct (set_col_step name _ df Hr Hlen) as (H1 & H2 & H3 & H4).
    repeat split; auto.
    + rewrite columns_set_col. eapply add_column_present, get_col_has_column, Hg.
    + now rewrite H3, fillna_floats.
  - repeat split; auto. simpl. now rewrite map_id.
Qed.

(** The flag computed from a numeric frame (lines 60 and 95). *)
Lemma flag_floats (threshold : float) (df : DataFrame) (t p : list float) :
  numeric_frame df t p ->
  (e ← abs_error df; anomaly ← series_gt e threshold;
   Ok (set_col "anomaly" anomaly df))
  = Ok (set_col "anomaly" (map VBool (zip_with (flag threshold) t p)) df).
Proof.
  intros Hnf. rewrite (abs_error_floats _ _ _ Hnf), bind_Ok_l.
  rewrite series_gt_floats, bind_Ok_l. do 3 f_equal.
  clear. revert p. induction t as [| x t IH]; intros [| y p]; simpl; try reflexivity.
  now rewrite IH.
Qed.

(** ** The deriver, statement by statement *)

Section DeriverFacts.

Variable parse : string -> option float.
Variable threshold : float.
Variables show_map show_tables : DataFrame -> result unit.

Lemma length_to_numeric (s : list value) : length (to_numeric parse s) = length s.
Proof. unfold to_numeric. destruct (forallb is_bool s); [| rewrite length_map]; reflexivity. Qed.

Lemma to_numeric_floats (s : list value) :
  not_boolean s ->
  to_numeric parse s = map VFloat (map (to_numeric_value parse) s).
Proof.
  intros Hs. unfold to_numeric. rewrite map_map.
  destruct s as [| c s]; [reflexivity |].
  inversion Hs as [| ? ? Hc _]. cbn [forallb]. now rewrite Hc.
Qed.

Lemma to_numeric_id (l : list float) : to_numeric parse (map VFloat l) = map VFloat l.
Proof.
  rewrite to_numeric_floats; [f_equal; rewrite map_map; exact (map_id l) |].
  unfold not_boolean. rewrite Forall_forall. intros c Hc.
  apply elem_of_map in Hc as (x & <- & _). reflexivity.
Qed.

Lemma coerced_stable (m : chained_access) (s : list value) :
  Forall (fun x => filled m x = x) (map (coerced parse m) s).
Proof.
  induction s as [| v s IH]; cbn [map]; constructor; [apply filled_idem | exact IH].
Qed.

Lemma coerced_unreadable (c : value) :
  unreadable parse c -> coerced parse WriteThrough c = 0%float.
Proof.
  intros [Hna | (s & -> & Hs)]; unfold coerced.
  - destruct c as [f | s | b]; try discriminate. simpl in *. now rewrite Hna.
  - simpl. rewrite Hs. reflexivity.
Qed.

(** Lines 51-57 on a frame that has the two columns. *)
Lemma coerce_spec (m : chained_access) (df : DataFrame) (T P : list value) :
  rectangular df ->
  get_col "truth" df = Ok T -> get_col "predictions" df = Ok P ->
  not_boolean T -> not_boolean P ->
  exists df',
    coerce parse m df = Ok df'
    /\ numeric_frame df' (map (coerced parse m) T) (map (coerced parse m) P)
    /\ length (rows df') = length (rows df)
    /\ columns df' = columns df
    /\ (forall n, n <> "truth" -> n <> "predictions" -> get_col n df' = get_col n df).
Proof.
  intros Hr HT HP HbT HbP. unfold coerce, coerce_column.
  rewrite HT, !bind_Ok_l.
  assert (HlT : length (to_numeric parse T) = length (rows df)).
  { rewrite length_to_numeric. eapply get_col_length, HT. }
  destruct (set_col_step "truth" _ df Hr HlT) as (Hr1 & Hn1 & Ht1 & Ho1).
  assert (Hc1 : columns (set_col "truth" (to_numeric parse T) df) = columns df).
  { rewrite columns_set_col. eapply add_column_present, get_col_has_column, HT. }
  set (df1 := set_col "truth" (to_numeric parse T) df) in *.
  rewrite (Ho1 "predictions") by discriminate. rewrite HP, !bind_Ok_l.
  assert (HlP : length (to_numeric parse P) = length (rows df1)).
  { rewrite length_to_numeric, Hn1. eapply get_col_length, HP. }
  destruct (set_col_step "predictions" _ df1 Hr1 HlP) as (Hr2 & Hn2 & Hp2 & Ho2).
  assert (Hc2 : columns (set_col "predictions" (to_numeric parse P) df1) = columns df).
  { rewrite columns_set_col, Hc1. eapply add_column_present, get_col_has_column, HP. }
  set (df2 := set_col "predictions" (to_numeric parse P) df1) in *.
  assert (Ht2 : get_col "truth" df2 = Ok (map VFloat (map (to_numeric_value parse) T))).
  { rewrite (Ho2 "truth") by discriminate. now rewrite Ht1, to_numeric_floats. }
  destruct (fillna_inplace_step m "truth" _ df2 Hr2 Ht2)
    as (df3 & -> & Hr3 & Hn3 & Hc3 & Ht3 & Ho3).
  rewrite bind_Ok_l.
  assert (Hp3 : get_col "predictions" df3
                = Ok (map VFloat (map (to_numeric_value parse) P))).
  { rewrite (Ho3 "predictions") by discriminate. now rewrite Hp2, to_numeric_floats. }
  destruct (fillna_inplace_step m "predictions" _ df3 Hr3 Hp3)
    as (df4 & -> & Hr4 & Hn4 & Hc4 & Hp4 & Ho4).
  exists df4. split; [reflexivity |]. split; [| split; [| split]].
  - split; [assumption |]. rewrite (Ho4 "truth") by discriminate.
    rewrite Ht3, Hp4, !map_map. auto.
  - lia.
  - congruence.
  - intros n Hnt Hnp. rewrite Ho4, Ho3, Ho2, Ho1; auto.
Qed.

(** Lines 51-60 on a frame that has the two columns. *)
Lemma flag_anomalies_spec (m : chained_access) (df : DataFrame) (T P : list value) :
  rectangular df ->
  get_col "truth" df = Ok T -> get_col "predictions" df = Ok P ->
  not_boolean T -> not_boolean P ->
  let t := map (coerced parse m) T in
  let p := map (coerced parse m) P in
  exists df',
    flag_anomalies parse m threshold df = Ok df'
    /\ numeric_frame df' t p
    /\ get_col "anomaly" df' = Ok (map VBool (zip_with (flag threshold) t p))
    /\ length (rows df') = length (rows df)
    /\ columns df' = add_column "anomaly" (columns df)
    /\ (forall n, n <> "truth" -> n <> "predictions" -> n <> "anomaly" ->
                  get_col n df' = get_col n df).
Proof.
  intros Hr HT HP HbT HbP t p. unfold flag_anomalies.
  destruct (coerce_spec m df T P Hr HT HP HbT HbP)
    as (df1 & -> & Hnf & Hn1 & Hc1 & Ho1).
  fold t p in Hnf. rewrite bind_Ok_l, (flag_floats _ _ _ _ Hnf).
  destruct (numeric_frame_lengths _ _ _ Hnf) as [Hlt Hlp].
  assert (Hlen : length (map VBool (zip_with (flag threshold) t p))
                 = length (rows df1)).
  { rewrite length_map, length_zip_with. lia. }
  destruct (set_col_step "anomaly" _ df1 (proj1 Hnf) Hlen) as (Hr2 & Hn2 & Ha2 & Ho2).
  eexists. split; [reflexivity |]. split; [| split; [| split; [| split]]]; auto.
  - apply numeric_frame_set_col; auto; discriminate.
  - lia.
  - rewrite columns_set_col, Hc1. reflexivity.
  - intros n Hnt Hnp Hna. rewrite Ho2, Ho1; auto.
Qed.

(** A frame that lines 51-60 have produced is left as it is by lines 86-95:
    every assignment writes the Series the column already holds. *)
Lemma flag_anomalies_fixed (m : chained_access) (df : DataFrame) (t p : list float) :
  numeric_frame df t p ->
  Forall (fun x => filled m x = x) t -> Forall (fun x => filled m x = x) p ->
  get_col "anomaly" df = Ok (map VBool (zip_with (flag threshold) t p)) ->
  flag_anomalies parse m threshold df = Ok df.
Proof.
  intros Hnf Hst Hsp Ha. pose proof Hnf as (Hr & Ht & Hp).
  assert (Hfill : forall l name,
            Forall (fun x => filled m x = x) l ->
            get_col name df = Ok (map VFloat l) ->
            fillna_inplace m name df = Ok df).
  { intros l name Hl Hg. unfold fillna_inplace. rewrite Hg, bind_Ok_l. f_equal.
    destruct m; [| reflexivity].
    rewrite fillna_floats. apply set_col_id; [assumption |].
    rewrite Hg. do 2 f_equal. symmetry. now apply map_fixed. }
  unfold flag_anomalies, coerce, coerce_column.
  rewrite Ht, !bind_Ok_l, to_numeric_id, (set_col_id _ _ _ Hr Ht).
  rewrite Hp, !bind_Ok_l, to_numeric_id, (set_col_id _ _ _ Hr Hp).
  rewrite (Hfill t "truth" Hst Ht), bind_Ok_l.
  rewrite (Hfill p "predictions" Hsp Hp), bind_Ok_l.
  rewrite (flag_floats _ _ _ _ Hnf). now rewrite (set_col_id _ _ _ Hr Ha).
Qed.

(** Lines 139-143 on a frame whose two columns are numeric. *)
Lemma score_anomalies_spec (df : DataFrame) (t p : list float) :
  numeric_frame df t p ->
  exists df',
    score_anomalies threshold df = Ok df'
    /\ numeric_frame df' t p
    /\ get_col "anomaly_score" df' = Ok (map VFloat (zip_with score t p))
    /\ get_col "anomaly" df'
       = Ok (map VBool (map (fun s => (threshold <? s)%float) (zip_with score t p)))
    /\ length (rows df') = length (rows df)
    /\ columns df' = add_column "anomaly" (add_column "anomaly_score" (columns df))
    /\ (forall n, n <> "anomaly_score" -> n <> "anomaly" ->
                  get_col n df' = get_col n df).
Proof.
  intros Hnf. unfold score_anomalies.
  rewrite (abs_error_floats _ _ _ Hnf), bind_Ok_l.
  destruct (numeric_frame_lengths _ _ _ Hnf) as [Hlt Hlp].
  assert (Hls : length (map VFloat (zip_with score t p)) = length (rows df)).
  { rewrite length_map, length_zip_with. lia. }
  destruct (set_col_step "anomaly_score" _ df (proj1 Hnf) Hls)
    as (Hr1 & Hn1 & Hs1 & Ho1).
  set (df1 := set_col "anomaly_score" _ df) in *.
  rewrite Hs1, bind_Ok_l, series_gt_floats, bind_Ok_l.
  assert (Hla : length (map VBool (map (fun s => (threshold <? s)%float)
                                       (zip_with score t p))) = length (rows df1)).
  { rewrite !length_map, length_zip_with. lia. }
  destruct (set_col_step "anomaly" _ df1 Hr1 Hla) as (Hr2 & Hn2 & Ha2 & Ho2).
  eexists. split; [reflexivity |].
  split; [| split; [| split; [| split; [| split]]]]; auto.
  - apply numeric_frame_set_col; [discriminate | discriminate | assumption |].
    apply numeric_frame_set_col; [discriminate | discriminate | assumption | assumption].
  - rewrite Ho2 by discriminate. assumption.
  - lia.
  - unfold df1. rewrite !columns_set_col. reflexivity.
  - intros n Hns Hna. rewrite Ho2, Ho1; auto.
Qed.

(** The deriver on a frame whose two columns hold numbers and text, when the
    rendering calls return: it returns, and the four columns it writes are the
    row-wise functions of the two inputs. *)
Lemma derive_spec (m : chained_access) (df : DataFrame) (T P : list value) :
  rectangular df ->
  get_col "truth" df = Ok T -> get_col "predictions" df = Ok P ->
  not_boolean T -> not_boolean P ->
  renders parse m threshold show_map show_tables df ->
  let t := map (coerced parse m) T in
  let p := map (coerced parse m) P in
  exists df',
    derive parse show_map show_tables m threshold df = Ok df'
    /\ numeric_frame df' t p
    /\ get_col "anomaly_score" df' = Ok (map VFloat (zip_with score t p))
    /\ get_col "anomaly" df'
       = Ok (map VBool (map (fun s => (threshold <? s)%float) (zip_with score t p)))
    /\ length (rows df') = length (rows df)
    /\ columns df' = add_column "anomaly_score" (add_column "anomaly" (columns df))
    /\ (forall n, n <> "truth" -> n <> "predictions" -> n <> "anomaly" ->
                  n <> "anomaly_score" -> get_col n df' = get_col n df).
Proof.
  intros Hr HT HP HbT HbP Hshow t p. unfold derive.
  destruct (flag_anomalies_spec m df T P Hr HT HP HbT HbP)
    as (df1 & Hrun & Hnf & Ha & Hn & Hc & Ho).
  fold t p in Hnf, Ha. rewrite Hrun, bind_Ok_l.
  destruct (Hshow df1 Hrun) as [-> Htables]. rewrite bind_Ok_l.
  rewrite (flag_anomalies_fixed m df1 t p Hnf
             (coerced_stable m T) (coerced_stable m P) Ha), bind_Ok_l.
  rewrite Htables, bind_Ok_l.
  destruct (score_anomalies_spec df1 t p Hnf)
    as (df2 & -> & Hnf2 & Hs2 & Ha2 & Hn2 & Hc2 & Ho2).
  exists df2. split; [reflexivity |].
  split; [| split; [| split; [| split; [| split]]]]; auto.
  - lia.
  - rewrite Hc2, Hc. apply add_column_present, col_index_elem_of.
    apply elem_of_add_column. right. apply elem_of_add_column. now left.
  - intros n H1 H2 H3 H4. rewrite Ho2, Ho; auto.
Qed.

(** Row by row: what the deriver leaves in the four columns it writes. *)
Lemma derive_rows (m : chained_access) (df : DataFrame) :
  rectangular df -> number_or_text "truth" df -> number_or_text "predictions" df ->
  renders parse m threshold show_map show_tables df ->
  exists df',
    derive parse show_map show_tables m threshold df = Ok df'
    /\ length (rows df') = length (rows df)
    /\ forall k r, rows df !! k = Some r ->
         exists r' ct cp,
           rows df' !! k = Some r'
           /\ field df "truth" r = Some ct
           /\ field df "predictions" r = Some cp
           /\ field df' "truth" r' = Some (VFloat (coerced parse m ct))
           /\ field df' "predictions" r' = Some (VFloat (coerced parse m cp))
           /\ field df' "anomaly_score" r'
              = Some (VFloat (score (coerced parse m ct) (coerced parse m cp)))
           /\ field df' "anomaly" r'
              = Some (VBool (threshold <? score (coerced parse m ct)
                                                (coerced parse m cp))%float).
Proof.
  intros Hr [Ht HbT] [Hp HbP] Hshow.
  destruct (has_column_get_col _ _ Ht) as [T HT].
  destruct (has_column_get_col _ _ Hp) as [P HP].
  destruct (derive_spec m df T P Hr HT HP (HbT T HT) (HbP P HP) Hshow)
    as (df' & Hrun & (Hr' & Ht' & Hp') & Hs' & Ha' & Hlen & _ & _).
  exists df'. split; [assumption |]. split; [assumption |].
  intros k r Hrk.
  destruct (lookup_lt_is_Some_2 (rows df') k) as [r' Hk].
  { rewrite Hlen. eapply lookup_lt_Some, Hrk. }
  pose proof (get_col_field _ _ _ _ _ HT Hrk) as HfT.
  pose proof (get_col_field _ _ _ _ _ HP Hrk) as HfP.
  destruct (lookup_lt_is_Some_2 T k) as [ct HTk].
  { rewrite (get_col_length _ _ _ HT). eapply lookup_lt_Some, Hrk. }
  destruct (lookup_lt_is_Some_2 P k) as [cp HPk].
  { rewrite (get_col_length _ _ _ HP). eapply lookup_lt_Some, Hrk. }
  exists r', ct, cp.
  rewrite (get_col_field _ _ _ _ _ Ht' Hk), (get_col_field _ _ _ _ _ Hp' Hk).
  rewrite (get_col_field _ _ _ _ _ Hs' Hk), (get_col_field _ _ _ _ _ Ha' Hk).
  rewrite HfT, HfP, !lookup_map, lookup_zip_with, !lookup_map, HTk, HPk.
  repeat split; first [assumption | reflexivity].
Qed.

End DeriverFacts.

(** ** The script, stage by stage *)

Lemma app_Ok (parse : string -> option float)
    (show_map show_tables : DataFrame -> result unit) (m : chained_access)
    (f : file) (ui : controls) (ses : session) :
  app parse show_map show_tables m f ui = Ok ses ->
  load_data f = Ok (data ses)
  /\ filter_chain ui (data ses) = Ok (side ses)
  /\ derive parse show_map show_tables m (threshold ui) (view (side ses))
     = Ok (filtered_data ses).
Proof.
  unfold app. intros H.
  bind_inv H d Hd. bind_inv H s Hs. bind_inv H fd Hfd.
  injection H as <-. auto.
Qed.

(** ** Equality filters *)

Lemma filter_eq_spec (name : string) (v : option value) (df : DataFrame) :
  has_column name df -> filter_eq name v df = Ok (narrowed name v df).
Proof.
  intros [i Hi]. unfold filter_eq, get_col, bool_index, eq_mask, narrowed.
  rewrite Hi, bind_Ok_l. do 2 f_equal. rewrite map_map, select_map.
  apply filter_ext. intros r. unfold keeps, field. rewrite Hi. now destruct v.
Qed.

Lemma filter_eq_Ok (name : string) (v : option value) (df df' : DataFrame) :
  filter_eq name v df = Ok df' -> has_column name df /\ df' = narrowed name v df.
Proof.
  intros H. assert (Hc : has_column name df).
  { unfold filter_eq in H. destruct (get_col name df) eqn:Hg; [| discriminate].
    eapply get_col_has_column, Hg. }
  split; [assumption |]. rewrite filter_eq_spec in H by assumption. congruence.
Qed.

Lemma keeps_not_na (df : DataFrame) (name : string) (v : option value) (r : row) :
  keeps df name v r = true -> present df name r.
Proof.
  unfold keeps, present. destruct (field df name r) as [c |]; [| discriminate].
  destruct v as [w |]; [| discriminate]. eauto using value_eqb_not_na.
Qed.

Lemma narrowed_present (name : string) (v : option value) (df : DataFrame) (r : row) :
  r ∈ rows (narrowed name v df) -> r ∈ rows df /\ present df name r.
Proof.
  simpl. intros H. apply elem_of_filter in H as [H1 H2].
  split; [assumption |]. now apply keeps_not_na in H2.
Qed.

Lemma hour_table_shape (ui : controls) (data : DataFrame) (s : sidebar) :
  columns (hour_table ui data s) = columns data
  /\ sublist (rows (hour_table ui data s)) (rows (day_table ui data s))
  /\ sublist (rows (day_table ui data s)) (rows (month_table data s))
  /\ sublist (rows (month_table data s)) (rows data).
Proof.
  unfold hour_table, day_table, month_table.
  destruct (filter_hour ui), (filter_day ui); repeat split;
    try reflexivity; apply filter_sublist.
Qed.

(** ** Options of a select box *)

Lemma insert_sorted_perm (v : value) (l : list value) :
  Permutation (insert_sorted v l) (v :: l).
Proof.
  induction l as [| w l IH]; simpl; [reflexivity |].
  destruct (value_ltb w v); [| reflexivity].
  rewrite IH. apply perm_swap.
Qed.

Lemma sort_ascending_perm (l : list value) : Permutation (sort_ascending l) l.
Proof.
  induction l as [| v l IH]; simpl; [reflexivity |].
  rewrite insert_sorted_perm. now constructor.
Qed.

Lemma sorted_Ok (l l' : list value) : sorted l = Ok l' -> Permutation l' l.
Proof.
  unfold sorted. destruct (comparable l); [| discriminate].
  intros [= <-]. apply sort_ascending_perm.
Qed.

Lemma comparable_incl (l l' : list value) :
  (forall x, x ∈ l' -> x ∈ l) -> comparable l = true -> comparable l' = true.
Proof.
  unfold comparable. intros Hin H.
  apply orb_true_iff in H as [H | H]; apply orb_true_iff; [left | right];
    rewrite forallb_forall in *; intros x Hx;
    apply H, list_elem_of_In, Hin, list_elem_of_In, Hx.
Qed.

Lemma existsb_perm (f : value -> bool) (l l' : list value) :
  Permutation l l' -> existsb f l = existsb f l'.
Proof.
  induction 1 as [| x l l' _ IH | x y l | l l' l'' _ IH1 _ IH2]; simpl.
  - reflexivity.
  - now rewrite IH.
  - destruct (f x), (f y); reflexivity.
  - congruence.
Qed.

Lemma distinct_perm (l l' : list value) :
  Permutation l l' -> distinct l = distinct l'.
Proof.
  induction 1 as [| x l l' Hp IH | x y l | l l' l'' _ IH1 _ IH2]; simpl.
  - reflexivity.
  - now rewrite IH, (existsb_perm _ _ _ Hp).
  - destruct (value_eqb y x) eqn:Hyx, (value_eqb x y) eqn:Hxy; simpl;
      try reflexivity.
    + apply value_eqb_sym in Hyx. congruence.
    + apply value_eqb_sym in Hxy. congruence.
    + destruct (existsb (value_eqb x) l), (existsb (value_eqb y) l); reflexivity.
  - congruence.
Qed.

Lemma elem_of_dropna (s : list value) (v : value) :
  v ∈ dropna s <-> v ∈ s /\ isna v = false.
Proof. unfold dropna. rewrite elem_of_filter. now rewrite negb_true_iff. Qed.

Lemma elem_of_unique_from (seen s : list value) (v : value) :
  v ∈ unique_from seen s -> v ∈ s /\ existsb (value_eqb v) seen = false.
Proof.
  revert seen. induction s as [| w s IH]; intros seen; simpl.
  - intros H. inversion H.
  - destruct (existsb (value_eqb w) seen) eqn:Hw.
    + intros H. apply IH in H as [H1 H2]. split; [now right | assumption].
    + intros H. apply elem_of_cons in H as [-> | H].
      * split; [now left | assumption].
      * apply IH in H as [H1 H2]. split; [now right |].
        simpl in H2. now apply orb_false_elim in H2.
Qed.

(** Every value met is [==] to one already seen or to one kept. *)
Lemma unique_from_covers (seen s : list value) (c : value) :
  c ∈ s -> isna c = false ->
  existsb (value_eqb c) seen = true
  \/ exists o, o ∈ unique_from seen s /\ value_eqb c o = true.
Proof.
  revert seen. induction s as [| w s IH]; intros seen Hc Hna; [inversion Hc |].
  simpl. apply elem_of_cons in Hc as [-> | Hc].
  - destruct (existsb (value_eqb w) seen) eqn:Hw; [now left |].
    right. exists w. split; [now left | now apply value_eqb_refl].
  - destruct (existsb (value_eqb w) seen) eqn:Hw.
    + destruct (IH seen Hc Hna) as [H | (o & Ho & Hco)]; [now left |].
      right. eauto.
    + destruct (IH (w :: seen) Hc Hna) as [H | (o & Ho & Hco)].
      * simpl in H. apply orb_true_iff in H as [H | H]; [| now left].
        right. exists w. split; [now left | assumption].
      * right. exists o. split; [now right | assumption].
Qed.

Lemma distinct_unique_from (seen s : list value) :
  distinct (unique_from seen s) = true.
Proof.
  revert seen. induction s as [| w s IH]; intros seen; simpl; [reflexivity |].
  destruct (existsb (value_eqb w) seen) eqn:Hw; [apply IH |].
  simpl. rewrite IH, andb_true_r. apply negb_true_iff.
  destruct (existsb (value_eqb w) (unique_from (w :: seen) s)) eqn:He; [| reflexivity].
  apply existsb_exists in He as (o & Ho & Hwo).
  apply list_elem_of_In, elem_of_unique_from in Ho as [_ Ho].
  simpl in Ho. apply orb_false_elim in Ho as [Ho _].
  apply value_eqb_sym in Hwo. congruence.
Qed.

Lemma options_of_spec (name : string) (df : DataFrame) (options : list value) :
  options_of name df = Ok options -> offers_exactly options name df.
Proof.
  unfold options_of. intros H. bind_inv H s Hs.
  apply sorted_Ok in H. unfold unique in H. split; [| split].
  - intros o Ho. rewrite H in Ho. apply elem_of_unique_from in Ho as [Ho _].
    apply elem_of_dropna in Ho as [Ho Hna]. split; [assumption |].
    now apply (get_col_elem_of _ _ _ _ Hs).
  - intros r c Hr Hf Hna.
    assert (Hc : c ∈ dropna s).
    { apply elem_of_dropna. split; [| assumption].
      apply (get_col_elem_of _ _ _ _ Hs). eauto. }
    destruct (unique_from_covers [] _ _ Hc Hna) as [Hx | (o & Ho & Hco)];
      [discriminate |].
    exists o. split; [| assumption]. now rewrite H.
  - rewrite (distinct_perm _ _ H). apply distinct_unique_from.
Qed.

Lemma offers_exactly_not_na (options : list value) (name : string) (df : DataFrame) :
  offers_exactly options name df -> Forall (fun o => isna o = false) options.
Proof. intros (H & _ & _). apply Forall_forall. intros o Ho. now apply H. Qed.

Lemma options_of_returns (name : string) (df : DataFrame) :
  homogeneous name df -> exists options, options_of name df = Ok options.
Proof.
  intros (s & Hs & Hc). unfold options_of, sorted. rewrite Hs, bind_Ok_l.
  rewrite (comparable_incl (dropna s)); [eauto | | assumption].
  intros x Hx. now apply elem_of_unique_from in Hx as [Hx _].
Qed.

Lemma homogeneous_has_column (name : string) (df : DataFrame) :
  homogeneous name df -> has_column name df.
Proof. intros (s & Hs & _). eapply get_col_has_column, Hs. Qed.

Lemma homogeneous_narrowed (name k : string) (v : option value) (df : DataFrame) :
  homogeneous name df -> homogeneous name (narrowed k v df).
Proof.
  intros (s & Hs & Hc).
  destruct (has_column_get_col name (narrowed k v df)) as [s' Hs'].
  { exact (get_col_has_column _ _ _ Hs). }
  exists s'. split; [assumption |].
  apply (comparable_incl (dropna s)); [| assumption].
  intros x Hx. apply elem_of_dropna in Hx as [Hx Hna]. apply elem_of_dropna.
  split; [| assumption].
  apply (get_col_elem_of _ _ _ _ Hs') in Hx as (r & Hr & Hf).
  apply (get_col_elem_of _ _ _ _ Hs). exists r. split; [| exact Hf].
  simpl in Hr. now apply elem_of_filter in Hr as [Hr _].
Qed.

(** ** The filter chain, stage by stage *)

Lemma optional_filter_Ok (ticked : bool) (name : string) (choice : nat)
    (fd : DataFrame) (out : option (list value) * option value * DataFrame) :
  optional_filter ticked name choice fd = Ok out ->
  if ticked then
    exists options,
      options_of name fd = Ok options
      /\ out = (Some options, selectbox options choice,
                narrowed name (selectbox options choice) fd)
  else out = (None, None, fd).
Proof.
  unfold optional_filter. destruct ticked; [| now intros [= <-]].
  intros H. bind_inv H options Ho. bind_inv H fd' Hf. injection H as <-.
  apply filter_eq_Ok in Hf as [Hc ->]. eauto.
Qed.

Lemma optional_filter_returns (ticked : bool) (name : string) (choice : nat)
    (fd : DataFrame) :
  homogeneous name fd ->
  exists options chosen,
    optional_filter ticked name choice fd
    = Ok (options, chosen, if ticked then narrowed name chosen fd else fd).
Proof.
  intros Hh. unfold optional_filter. destruct ticked; [| eauto].
  destruct (options_of_returns _ _ Hh) as [o ->]. rewrite bind_Ok_l.
  rewrite filter_eq_spec by now apply homogeneous_has_column.
  rewrite bind_Ok_l. eauto.
Qed.

Lemma filter_chain_Ok (ui : controls) (data : DataFrame) (s : sidebar) :
  filter_chain ui data = Ok s ->
  options_of "month" data = Ok (month_options s)
  /\ month s = selectbox (month_options s) (month_choice ui)
  /\ optional_filter (filter_day ui) "day_of_week" (day_choice ui) (month_table data s)
     = Ok (day_options s, day_of_week s, day_table ui data s)
  /\ optional_filter (filter_hour ui) "hour" (hour_choice ui) (day_table ui data s)
     = Ok (hour_options s, hour s, hour_table ui data s)
  /\ view s = hour_table ui data s.
Proof.
  unfold filter_chain. intros H.
  bind_inv H mo Hmo. bind_inv H fd1 Hf1. bind_inv H d Hd. bind_inv H h Hh.
  injection H as <-. apply filter_eq_Ok in Hf1 as [Hc1 ->].
  unfold hour_table, day_table, month_table. simpl.
  pose proof (optional_filter_Ok _ _ _ _ _ Hd) as Hd'.
  pose proof (optional_filter_Ok _ _ _ _ _ Hh) as Hh'.
  destruct d as [[dopts dsel] fd2], h as [[hopts hsel] fd3]. simpl in *.
  set (fd1 := narrowed "month" (selectbox mo (month_choice ui)) data) in *.
  assert (Hfd2 : fd2 = if filter_day ui then narrowed "day_of_week" dsel fd1 else fd1).
  { destruct (filter_day ui); [| congruence].
    destruct Hd' as (o & _ & [= -> -> ->]). reflexivity. }
  assert (Hfd3 : fd3 = if filter_hour ui then narrowed "hour" hsel fd2 else fd2).
  { destruct (filter_hour ui); [| congruence].
    destruct Hh' as (o & _ & [= -> -> ->]). reflexivity. }
  rewrite <- Hfd2, <- Hfd3. auto.
Qed.

Lemma filter_chain_view (ui : controls) (data : DataFrame) (s : sidebar) :
  filter_chain ui data = Ok s ->
  columns (view s) = columns data /\ sublist (rows (view s)) (rows data).
Proof.
  intros H. apply filter_chain_Ok in H as (_ & _ & _ & _ & ->).
  destruct (hour_table_shape ui data s) as (H1 & H2 & H3 & H4).
  split; [assumption |]. now rewrite H2, H3.
Qed.


(** ** The rows of the view *)

Lemma filter_filter_andb {A : Type} (f g : A -> bool) (l : list A) :
  List.filter f (List.filter g l) = List.filter (fun x => g x && f x) l.
Proof.
  induction l as [| x l IH]; simpl; [reflexivity |].
  destruct (g x); simpl; [destruct (f x) |]; now rewrite IH.
Qed.

Lemma filter_all_true {A : Type} (f : A -> bool) (l : list A) :
  (forall x, f x = true) -> List.filter f l = l.
Proof.
  intros H. induction l as [| x l IH]; simpl; [reflexivity |]. now rewrite H, IH.
Qed.



(** * The claims *)

(** ** The anomaly deriver *)


(** C2: under the same conditions on the frame, the derived table has one row
    for each row of the frame, and in every one of them the flag is
    [anomaly_score > threshold], strictly: a score that is the threshold, or
    [==] to it, is not flagged. *)
Theorem anomaly_is_score_above_threshold (parse : string -> option float)
    (show_map show_tables : DataFrame -> result unit)
    (m : chained_access) (threshold : float) (df : DataFrame) :
  rectangular df -> rows df <> [] ->
  number_or_text "truth" df -> number_or_text "predictions" df ->
  renders parse m threshold show_map show_tables df ->
  exists df',
    derive parse show_map show_tables m threshold df = Ok df'
    /\ length (rows df') = length (rows df)
    /\ forall k r, rows df !! k = Some r ->
         exists r' s,
           rows df' !! k = Some r'
           /\ field df' "anomaly_score" r' = Some (VFloat s)
           /\ field df' "anomaly" r' = Some (VBool (threshold <? s)%float)
           /\ (s = threshold \/ (threshold =? s)%float = true ->
               field df' "anomaly" r' = Some (VBool false)).
Proof.
  intros Hr _ Ht Hp Hshow.
  destruct (derive_rows parse threshold show_map show_tables m df Hr Ht Hp Hshow)
    as (df' & Hrun & Hlen & Hrows).
  exists df'. split; [assumption |]. split; [assumption |]. intros k r Hk.
  destruct (Hrows k r Hk) as (r' & ct & cp & H0 & _ & _ & _ & _ & H3 & H4).
  exists r'. eexists. split; [exact H0 |]. split; [exact H3 |]. split; [exact H4 |].
  intros [Heq | Heq]; rewrite H4.
  - now rewrite Heq, float_ltb_irrefl.
  - now rewrite (float_eqb_not_ltb _ _ Heq).
Qed.

(** C3, as the code has it: where the in-place fill reaches the frame (pandas
    before 3.0), on a rectangular frame with a row whose [truth] and
    [predictions] hold numbers and text, when the rendering calls return, the
    deriver returns, and a [truth] or [predictions] cell that is missing or
    spells no number is [0] in the derived row. *)
Theorem unreadable_values_become_zero (parse : string -> option float)
    (show_map show_tables : DataFrame -> result unit)
    (threshold : float) (df : DataFrame) :
  rectangular df -> rows df <> [] ->
  number_or_text "truth" df -> number_or_text "predictions" df ->
  renders parse WriteThrough threshold show_map show_tables df ->
  exists df',
    derive parse show_map show_tables WriteThrough threshold df = Ok df'
    /\ length (rows df') = length (rows df)
    /\ forall k r, rows df !! k = Some r ->
         exists r',
           rows df' !! k = Some r'
           /\ (forall c, field df "truth" r = Some c -> unreadable parse c ->
                         field df' "truth" r' = Some (VFloat 0))
           /\ (forall c, field df "predictions" r = Some c -> unreadable parse c ->
                         field df' "predictions" r' = Some (VFloat 0)).
Proof.
  intros Hr _ Ht Hp Hshow.
  destruct (derive_rows parse threshold show_map show_tables WriteThrough df
              Hr Ht Hp Hshow) as (df' & Hrun & Hlen & Hrows).
  exists df'. split; [assumption |]. split; [assumption |]. intros k r Hk.
  destruct (Hrows k r Hk) as (r' & ct & cp & Hk' & Hct & Hcp & H1 & H2 & _).
  exists r'. split; [assumption |].
  split; intros c Hc Hu.
  - rewrite H1. assert (ct = c) as -> by congruence. now rewrite coerced_unreadable.
  - rewrite H2. assert (cp = c) as -> by congruence. now rewrite coerced_unreadable.
Qed.

(** C9: on a rectangular frame with a row whose [truth] and [predictions]
    hold numbers and text, the block of lines 51-60 returns a frame with as
    many rows and with the column [anomaly], and run again on its own result
    (lines 86-95) it returns that very frame. *)
Theorem coercion_and_flagging_idempotent (parse : string -> option float)
    (m : chained_access) (threshold : float) (df : DataFrame) :
  rectangular df -> rows df <> [] ->
  number_or_text "truth" df -> number_or_text "predictions" df ->
  exists df1,
    flag_anomalies parse m threshold df = Ok df1
    /\ length (rows df1) = length (rows df)
    /\ columns df1 = add_column "anomaly" (columns df)
    /\ flag_anomalies parse m threshold df1 = Ok df1.
Proof.
  intros Hr _ [Ht HbT] [Hp HbP].
  destruct (has_column_get_col _ _ Ht) as [T HT].
  destruct (has_column_get_col _ _ Hp) as [P HP].
  destruct (flag_anomalies_spec parse threshold m df T P Hr HT HP (HbT T HT) (HbP P HP))
    as (df1 & Hrun & Hnf & Ha & Hlen & Hcols & _).
  exists df1. split; [assumption |]. split; [assumption |]. split; [assumption |].
  apply (flag_anomalies_fixed parse threshold m df1 _ _ Hnf); auto using coerced_stable.
Qed.

(** ** The loader *)

(** C4, as the code has it: [load_data] checks no column.  A missing file and
    a file the reader cannot read fail at load time with the reader's own
    exception; every table the reader returns is loaded as it is; with no
    [month] column the script stops after the load, at the month selector,
    with [KeyError]; with no [truth] column it stops at the first statement of
    the deriver, with no [predictions] column at the second. *)
Theorem load_data_checks_no_column (parse : string -> option float)
    (show_map show_tables : DataFrame -> result unit) (m : chained_access) :
  load_data Missing = Raise FileNotFoundError
  /\ (forall e, load_data (Unreadable e) = Raise e)
  /\ (forall table, load_data (Csv table) = Ok table)
  /\ (forall table ui,
        ~ has_column "month" table ->
        app parse show_map show_tables m (Csv table) ui = Raise (KeyError "month"))
  /\ (forall table ui s,
        filter_chain ui table = Ok s -> ~ has_column "truth" table ->
        app parse show_map show_tables m (Csv table) ui = Raise (KeyError "truth"))
  /\ (forall table ui s,
        filter_chain ui table = Ok s ->
        has_column "truth" table -> ~ has_column "predictions" table ->
        app parse show_map show_tables m (Csv table) ui
        = Raise (KeyError "predictions")).
Proof.
  repeat split.
  - intros table ui Hno. unfold app, filter_chain, options_of. simpl.
    now rewrite (get_col_missing _ _ Hno).
  - intros table ui s Hs Hno. unfold app, load_data, read_csv.
    rewrite bind_Ok_l, Hs, bind_Ok_l.
    destruct (filter_chain_view _ _ _ Hs) as [Hc _].
    unfold derive, flag_anomalies, coerce, coerce_column.
    rewrite get_col_missing; [reflexivity |].
    unfold has_column. now rewrite Hc.
  - intros table ui s Hs Ht Hno. unfold app, load_data, read_csv.
    rewrite bind_Ok_l, Hs, bind_Ok_l.
    destruct (filter_chain_view _ _ _ Hs) as [Hc _].
    assert (Ht' : has_column "truth" (view s)) by (unfold has_column; now rewrite Hc).
    destruct (has_column_get_col _ _ Ht') as [T HT].
    unfold derive, flag_anomalies, coerce, coerce_column.
    rewrite HT, !bind_Ok_l. rewrite get_col_missing; [reflexivity |].
    unfold has_column. rewrite columns_set_col, add_column_present by exact Ht'.
    now rewrite Hc.
Qed.

(** ** The filter chain *)

(** C5: on a frame that has both columns, the day-of-week filter followed by
    the hour filter and the hour filter followed by the day-of-week filter
    return the same frame. *)
Theorem day_and_hour_filters_commute (d h : option value) (df : DataFrame) :
  has_column "day_of_week" df -> has_column "hour" df ->
  exists v,
    (fd ← filter_eq "day_of_week" d df; filter_eq "hour" h fd) = Ok v
    /\ (fd ← filter_eq "hour" h df; filter_eq "day_of_week" d fd) = Ok v.
Proof.
  intros Hd Hh.
  rewrite (filter_eq_spec "day_of_week" d df Hd), (filter_eq_spec "hour" h df Hh).
  rewrite !bind_Ok_l, !filter_eq_spec by assumption.
  eexists. split; [reflexivity |]. unfold narrowed. simpl. do 2 f_equal.
  exact (filter_filter_comm (keeps df "day_of_week" d) (keeps df "hour" h) (rows df)).
Qed.

(** C6: when the script returns, the base table it holds is the table that
    was loaded, and the view after the filters has the columns of the base
    table, in their order, and rows that form a sublist of its rows: rows are
    only removed, each one kept is a row of the base table and they keep their
    order. *)
Theorem filtering_removes_rows_only (parse : string -> option float)
    (show_map show_tables : DataFrame -> result unit)
    (m : chained_access) (table : DataFrame) (ui : controls) (ses : session) :
  app parse show_map show_tables m (Csv table) ui = Ok ses ->
  data ses = table
  /\ columns (view (side ses)) = columns table
  /\ sublist (rows (view (side ses))) (rows table).
Proof.
  intros H. apply app_Ok in H as (Hl & Hc & _).
  simpl in Hl. injection Hl as Hl. rewrite <- Hl in Hc.
  split; [congruence |]. exact (filter_chain_view _ _ _ Hc).
Qed.


(** C8: when the chain returns, the day-of-week options offered are exactly
    the distinct values of the month-filtered table, and the hour options
    offered are exactly the distinct values of the table filtered by month
    and, when that filter is ticked, by day of week. *)
Theorem options_come_from_the_narrowed_table (ui : controls) (data : DataFrame)
    (s : sidebar) :
  filter_chain ui data = Ok s ->
  (filter_day ui = true ->
   exists options,
     day_options s = Some options
     /\ offers_exactly options "day_of_week" (month_table data s))
  /\ (filter_hour ui = true ->
      exists options,
        hour_options s = Some options
        /\ offers_exactly options "hour" (day_table ui data s)).
Proof.
  intros H. apply filter_chain_Ok in H as (_ & _ & Hd & Hh & _).
  apply optional_filter_Ok in Hd, Hh. split; intros Hon.
  - rewrite Hon in Hd. destruct Hd as (o & Ho & [= -> _ _]).
    exists o. split; [reflexivity |]. now apply options_of_spec.
  - rewrite Hon in Hh. destruct Hh as (o & Ho & [= -> _ _]).
    exists o. split; [reflexivity |]. now apply options_of_spec.
Qed.

(** C10: when the chain returns, no option offered for month, day of week or
    hour is a missing value, every row of the view has a month that is not
    missing, and it has a day of week, an hour, that is not missing when that
    filter is ticked. *)
Theorem missing_keys_never_pass (ui : controls) (data : DataFrame) (s : sidebar) :
  filter_chain ui data = Ok s ->
  Forall (fun o => isna o = false) (month_options s)
  /\ (forall options, day_options s = Some options ->
                      Forall (fun o => isna o = false) options)
  /\ (forall options, hour_options s = Some options ->
                      Forall (fun o => isna o = false) options)
  /\ forall r, r ∈ rows (view s) ->
       present data "month" r
       /\ (filter_day ui = true -> present data "day_of_week" r)
       /\ (filter_hour ui = true -> present data "hour" r).
Proof.
  intros H. apply filter_chain_Ok in H as (Hm & _ & Hd & Hh & Hv).
  apply optional_filter_Ok in Hd, Hh.
  split; [eapply offers_exactly_not_na, options_of_spec, Hm |].
  split; [| split].
  - intros o Ho. destruct (filter_day ui).
    + destruct Hd as (o' & Ho' & Heq). rewrite Ho in Heq.
      injection Heq as -> _ _. eapply offers_exactly_not_na, options_of_spec, Ho'.
    + rewrite Ho in Hd. discriminate.
  - intros o Ho. destruct (filter_hour ui).
    + destruct Hh as (o' & Ho' & Heq). rewrite Ho in Heq.
      injection Heq as -> _ _. eapply offers_exactly_not_na, options_of_spec, Ho'.
    + rewrite Ho in Hh. discriminate.
  - intros r Hr. rewrite Hv in Hr. clear Hm Hd Hh Hv.
    unfold hour_table, day_table, month_table in *.
    assert (Hmonth : forall r, r ∈ rows (narrowed "month" (month s) data) ->
                               present data "month" r).
    { intros r0 Hr0. now apply narrowed_present in Hr0. }
    destruct (filter_hour ui), (filter_day ui).
    + apply narrowed_present in Hr as [Hr Hh]. apply narrowed_present in Hr as [Hr Hd].
      split; [now apply Hmonth |]. split; intros _; assumption.
    + apply narrowed_present in Hr as [Hr Hh].
      split; [now apply Hmonth |]. split; [discriminate | intros _; assumption].
    + apply narrowed_present in Hr as [Hr Hd].
      split; [now apply Hmonth |]. split; [intros _; assumption | discriminate].
    + split; [now apply Hmonth |]. split; discriminate.
Qed.

(** * The sample table *)

Lemma sample_rectangular : rectangular sample.
Proof. unfold rectangular, sample. simpl. repeat constructor. Defined.

Lemma sample_has_row : rows sample <> [].
Proof. discriminate. Defined.

Lemma sample_has_truth : has_column "truth" sample.
Proof. eexists. reflexivity. Defined.

Lemma sample_has_predictions : has_column "predictions" sample.
Proof. eexists. reflexivity. Defined.

Lemma sample_truth_number_or_text : number_or_text "truth" sample.
Proof.
  split; [exact sample_has_truth |]. intros s [= <-]. repeat constructor.
Defined.

Lemma sample_predictions_number_or_text : number_or_text "predictions" sample.
Proof.
  split; [exact sample_has_predictions |]. intros s [= <-]. repeat constructor.
Defined.



Lemma quiet_renders (m : chained_access) (threshold : float) (df : DataFrame) :
  renders decimal m threshold quiet quiet df.
Proof. intros fd _. split; reflexivity. Defined.

Lemma sample_month_homogeneous : homogeneous "month" sample.
Proof. eexists. split; reflexivity. Defined.

Lemma sample_day_homogeneous : homogeneous "day_of_week" sample.
Proof. eexists. split; reflexivity. Defined.

Lemma sample_hour_homogeneous : homogeneous "hour" sample.
Proof. eexists. split; reflexivity. Defined.

(** The export for June at threshold 2: the row with the text cells scores
    [|0 - 4|], and the columns [anomaly] and [anomaly_score] come last. *)
Example june_export :
  filtered_data june_session
  = mkDF ["node_id"; "month"; "day_of_week"; "hour"; "truth"; "predictions";
          "anomaly"; "anomaly_score"]
      [ [VFloat 1; VFloat 6; VFloat 1; VFloat 8; VFloat 5; VFloat 2;
         VBool true; VFloat 3];
        [VFloat 2; VFloat 6; VFloat 2; VFloat 9; VFloat 0; VFloat 4;
         VBool true; VFloat 4];
        [VFloat 5; VFloat 6; VFloat 1; VFloat 9; VFloat 3; VFloat 0.5;
         VBool true; VFloat 2.5] ].
Proof. vm_compute. reflexivity. Qed.

(** A score of 3 is above the threshold 2 and not above the threshold 3. *)
Example score_three_against_thresholds :
  flag 2 5 2 = true /\ flag 3 5 2 = false.
Proof. split; reflexivity. Qed.

(** The sidebar for June, day 1, hour 9: the day options are those of the
    June rows, the hour options those of the June rows of day 1. *)
Example june_day1_hour9_options :
  month_options june_day1_hour9_sidebar = [VFloat 6; VFloat 7]
  /\ day_options june_day1_hour9_sidebar = Some [VFloat 1; VFloat 2]
  /\ hour_options june_day1_hour9_sidebar = Some [VFloat 8; VFloat 9]
  /\ rows (view june_day1_hour9_sidebar)
     = [ [VFloat 5; VFloat 6; VFloat 1; VFloat 9; VFloat 3; VFloat 0.5] ].
Proof. vm_compute. repeat split; reflexivity. Qed.

(** The options cascade: month 7 has rows of day 1 only, so day 2, which the
    base table has, is not offered. *)
Example july_day_options :
  day_options (value_or (filter_chain (mkControls 1 true 0 false 0 2) sample)
                        no_sidebar)
  = Some [VFloat 1]
  /\ options_of "day_of_week" sample = Ok [VFloat 1; VFloat 2].
Proof. vm_compute. split; reflexivity. Qed.

(** Under copy-on-write the fill of lines 56-57 is lost: a missing [truth]
    stays missing, its score is NaN and the row is not flagged. *)
Example fill_is_lost_under_copy_on_write :
  derive decimal quiet quiet CopyOnWrite 2 sample_missing_truth
  = Ok (mkDF ["truth"; "predictions"; "anomaly"; "anomaly_score"]
          [ [NaN; VFloat 9; VBool false; NaN] ]).
Proof. vm_compute. reflexivity. Qed.

Example fill_reaches_the_frame_before_pandas_3 :
  derive decimal quiet quiet WriteThrough 2 sample_missing_truth
  = Ok (mkDF ["truth"; "predictions"; "anomaly"; "anomaly_score"]
          [ [VFloat 0; VFloat 9; VBool true; VFloat 9] ]).
Proof. vm_compute. reflexivity. Qed.

(** [pd.to_numeric] leaves a bool column as it is, and a bool column against
    a float64 column subtracts as [1.0] and [0.0]. *)
Example boolean_truth_against_numbers :
  derive decimal quiet quiet WriteThrough 2
    (mkDF ["truth"; "predictions"] [ [VBool true; VFloat 4]; [VBool false; VFloat 1] ])
  = Ok (mkDF ["truth"; "predictions"; "anomaly"; "anomaly_score"]
          [ [VBool true; VFloat 4; VBool true; VFloat 3];
            [VBool false; VFloat 1; VBool false; VFloat 1] ]).
Proof. vm_compute. reflexivity. Qed.

(** Beyond [small]: the binary64 difference of 2^62 and -2^62 is 2^63, which
    no int64 holds; on two int64 columns numpy wraps around there. *)
Example difference_beyond_int64 :
  small 4611686018427387904 = false
  /\ score 4611686018427387904 (-4611686018427387904) = 9223372036854775808%float.
Proof. split; vm_compute; reflexivity. Qed.

(** The script stops where a rendering call raises. *)
Example rendering_error_stops_the_script :
  derive decimal (fun _ => Raise (OtherError "ValueError")) quiet WriteThrough 2
    sample_missing_truth
  = Raise (OtherError "ValueError").
Proof. vm_compute. reflexivity. Qed.

(** A month column that mixes numbers and text stops the month selector. *)
Example mixed_month_column_raises :
  filter_chain june (mkDF ["month"] [ [VFloat 6]; [VStr "June"] ]) = Raise TypeError.
Proof. vm_compute. reflexivity. Qed.

(** ** The claims on the sample table *)


Lemma anomaly_is_score_above_threshold_sample :
  exists df',
    derive decimal quiet quiet WriteThrough 2 sample = Ok df'
    /\ length (rows df') = length (rows sample)
    /\ forall k r, rows sample !! k = Some r ->
         exists r' s,
           rows df' !! k = Some r'
           /\ field df' "anomaly_score" r' = Some (VFloat s)
           /\ field df' "anomaly" r' = Some (VBool (2 <? s)%float)
           /\ (s = 2%float \/ (2 =? s)%float = true ->
               field df' "anomaly" r' = Some (VBool false)).
Proof.
  exact (anomaly_is_score_above_threshold decimal quiet quiet WriteThrough 2 sample
           sample_rectangular sample_has_row
           sample_truth_number_or_text sample_predictions_number_or_text
           (quiet_renders WriteThrough 2 sample)).
Defined.

(** The deriver raises [TypeError] at line 60 on two bool columns, and under
    copy-on-write a missing [truth] is not [0] in the derived row. *)
Lemma derivation_raises_on_boolean_columns :
  derive decimal quiet quiet WriteThrough 2 sample_booleans = Raise TypeError
  /\ derive decimal quiet quiet CopyOnWrite 2 sample_booleans = Raise TypeError
  /\ derive decimal quiet quiet CopyOnWrite 2 sample_missing_truth
     = Ok (mkDF ["truth"; "predictions"; "anomaly"; "anomaly_score"]
             [ [NaN; VFloat 9; VBool false; NaN] ]).
Proof. repeat split; vm_compute; reflexivity. Qed.

Lemma unreadable_values_become_zero_sample :
  exists df',
    derive decimal quiet quiet WriteThrough 2 sample = Ok df'
    /\ length (rows df') = length (rows sample)
    /\ forall k r, rows sample !! k = Some r ->
         exists r',
           rows df' !! k = Some r'
           /\ (forall c, field sample "truth" r = Some c -> unreadable decimal c ->
                         field df' "truth" r' = Some (VFloat 0))
           /\ (forall c, field sample "predictions" r = Some c ->
                         unreadable decimal c ->
                         field df' "predictions" r' = Some (VFloat 0)).
Proof.
  exact (unreadable_values_become_zero decimal quiet quiet 2 sample
           sample_rectangular sample_has_row
           sample_truth_number_or_text sample_predictions_number_or_text
           (quiet_renders WriteThrough 2 sample)).
Defined.

Lemma coercion_and_flagging_idempotent_sample :
  exists df1,
    flag_anomalies decimal WriteThrough 2 sample = Ok df1
    /\ length (rows df1) = length (rows sample)
    /\ columns df1 = add_column "anomaly" (columns sample)
    /\ flag_anomalies decimal WriteThrough 2 df1 = Ok df1.
Proof.
  exact (coercion_and_flagging_idempotent decimal WriteThrough 2 sample
           sample_rectangular sample_has_row
           sample_truth_number_or_text sample_predictions_number_or_text).
Defined.

(** A table with every required column but [month] is loaded without
    complaint; the script fails after the load, at the month selector. *)
Lemma load_data_accepts_table_without_month :
  "month" ∈ required_columns
  /\ col_index "month" (columns sample_no_month) = None
  /\ load_data (Csv sample_no_month) = Ok sample_no_month
  /\ app decimal quiet quiet WriteThrough (Csv sample_no_month) june
     = Raise (KeyError "month").
Proof.
  split; [apply col_index_elem_of; eexists; reflexivity |].
  repeat split; reflexivity.
Qed.

Lemma load_data_checks_no_column_sample :
  load_data (Csv sample_no_month) = Ok sample_no_month
  /\ app decimal quiet quiet WriteThrough (Csv sample_no_month) june_day1_hour9
     = Raise (KeyError "month")
  /\ app decimal quiet quiet WriteThrough (Csv sample_no_truth) june
     = Raise (KeyError "truth")
  /\ app decimal quiet quiet WriteThrough (Csv sample_no_predictions) june
     = Raise (KeyError "predictions").
Proof.
  destruct (load_data_checks_no_column decimal quiet quiet WriteThrough)
    as (_ & _ & Hload & Hmonth & Htruth & Hpredictions).
  split; [apply Hload |]. split; [| split].
  - apply Hmonth. intros [i Hi]. discriminate Hi.
  - apply (Htruth sample_no_truth june
             (value_or (filter_chain june sample_no_truth) no_sidebar)).
    + vm_compute. reflexivity.
    + intros [i Hi]. discriminate Hi.
  - apply (Hpredictions sample_no_predictions june
             (value_or (filter_chain june sample_no_predictions) no_sidebar)).
    + vm_compute. reflexivity.
    + eexists. reflexivity.
    + intros [i Hi]. discriminate Hi.
Defined.

Lemma day_and_hour_filters_commute_sample :
  exists v,
    (fd ← filter_eq "day_of_week" (Some (VFloat 1)) sample;
     filter_eq "hour" (Some (VFloat 8)) fd) = Ok v
    /\ (fd ← filter_eq "hour" (Some (VFloat 8)) sample;
        filter_eq "day_of_week" (Some (VFloat 1)) fd) = Ok v.
Proof.
  apply day_and_hour_filters_commute; eexists; reflexivity.
Defined.

Lemma filtering_removes_rows_only_sample :
  data june_session = sample
  /\ columns (view (side june_session)) = columns sample
  /\ sublist (rows (view (side june_session))) (rows sample).
Proof.
  apply (filtering_removes_rows_only decimal quiet quiet WriteThrough sample june
           june_session).
  vm_compute. reflexivity.
Defined.




Lemma options_come_from_the_narrowed_table_sample :
  (filter_day june_day1_hour9 = true ->
   exists options,
     day_options june_day1_hour9_sidebar = Some options
     /\ offers_exactly options "day_of_week"
          (month_table sample june_day1_hour9_sidebar))
  /\ (filter_hour june_day1_hour9 = true ->
      exists options,
        hour_options june_day1_hour9_sidebar = Some options
        /\ offers_exactly options "hour"
             (day_table june_day1_hour9 sample june_day1_hour9_sidebar)).
Proof.
  apply (options_come_from_the_narrowed_table june_day1_hour9 sample
           june_day1_hour9_sidebar).
  vm_compute. reflexivity.
Defined.

Lemma missing_keys_never_pass_sample :
  Forall (fun o => isna o = false) (month_options june_day1_hour9_sidebar)
  /\ (forall options, day_options june_day1_hour9_sidebar = Some options ->
                      Forall (fun o => isna o = false) options)
  /\ (forall options, hour_options june_day1_hour9_sidebar = Some options ->
                      Forall (fun o => isna o = false) options)
  /\ forall r, r ∈ rows (view june_day1_hour9_sidebar) ->
       present sample "month" r
       /\ (filter_day june_day1_hour9 = true -> present sample "day_of_week" r)
       /\ (filter_hour june_day1_hour9 = true -> present sample "hour" r).
Proof.
  apply (missing_keys_never_pass june_day1_hour9 sample june_day1_hour9_sidebar).
  vm_compute. reflexivity.
Defined.

(** * Further properties *)

(** ** The order of binary64 floats *)

Lemma SFcompare_antisym (x y : spec_float) :
  SFcompare y x = option_map CompOpp (SFcompare x y).
Proof.
  destruct x as [s | s | | s m e], y as [t | t | | t n e']; simpl; try reflexivity;
    try (destruct s; reflexivity); try (destruct t; reflexivity);
    try (destruct s, t; reflexivity).
  destruct s, t; simpl; try reflexivity;
    rewrite (Z.compare_antisym e e'); destruct (e ?= e')%Z; simpl; try reflexivity;
    change (Pos.compare_cont Eq n m) with (Pos.compare n m);
    change (Pos.compare_cont Eq m n) with (Pos.compare m n);
    rewrite (Pos.compare_antisym m n); destruct (m ?= n)%positive; reflexivity.
Qed.

Lemma SFcompare_not_nan (x y : spec_float) :
  x <> S754_nan -> y <> S754_nan -> exists c, SFcompare x y = Some c.
Proof.
  destruct x, y; simpl; intros Hx Hy; try congruence; eauto.
Qed.

Lemma SFcompare_trans (x y z : spec_float) (c : comparison) :
  c <> Gt ->
  SFcompare x y = Some c -> SFcompare y z = Some Lt -> SFcompare x z = Some Lt.
Proof.
  intros Hc.
  destruct x as [s | s | | s m e], y as [t | t | | t n e'], z as [u | u | | u k e''];
    simpl; try discriminate;
    try (destruct s; try discriminate; destruct t; try discriminate;
         destruct u; try discriminate; intros; congruence);
    try (destruct s; try discriminate; destruct t; try discriminate; intros; congruence);
    try (destruct s; try discriminate; destruct u; try discriminate; intros; congruence);
    try (destruct t; try discriminate; destruct u; try discriminate; intros; congruence).
  change (Pos.compare_cont Eq m n) with (Pos.compare m n).
  change (Pos.compare_cont Eq n k) with (Pos.compare n k).
  change (Pos.compare_cont Eq m k) with (Pos.compare m k).
  destruct s, t, u; try discriminate; try (intros; congruence);
    destruct (Z.compare_spec e e'), (Z.compare_spec e' e''), (Z.compare_spec e e'');
    try lia; try discriminate; try (intros; congruence);
    destruct (Pos.compare_spec m n), (Pos.compare_spec n k), (Pos.compare_spec m k);
    simpl; try lia; try discriminate; try (intros; congruence).
Qed.

(** ** The view of the filter chain *)

(** X1: when the chain returns, the view has the columns of the base table
    and its rows are exactly the rows of the base table, in their order, whose
    month is [==] to the month chosen and whose day of week and hour are [==]
    to the ones chosen when those filters are ticked. *)
Theorem view_is_the_matching_rows (ui : controls) (data : DataFrame) (s : sidebar) :
  filter_chain ui data = Ok s ->
  columns (view s) = columns data
  /\ rows (view s) = List.filter (matches ui data s) (rows data).
Proof.
  intros H. apply filter_chain_Ok in H as (_ & _ & _ & _ & ->).
  unfold hour_table, day_table, month_table, narrowed, matches.
  destruct (filter_hour ui), (filter_day ui); simpl; (split; [reflexivity |]);
    rewrite ?filter_filter_andb; apply filter_ext; intros r;
    unfold keeps, field; cbn [columns];
    rewrite ?andb_true_r, <- ?andb_assoc; reflexivity.
Qed.

Lemma rows_narrowed_None (name : string) (df : DataFrame) :
  rows (narrowed name None df) = [].
Proof.
  unfold narrowed. simpl. induction (rows df) as [| r l IH]; simpl; [reflexivity |].
  unfold keeps at 1. destruct (field df name r); exact IH.
Qed.

Lemma rows_narrowed_empty (name : string) (v : option value) (df : DataFrame) :
  rows df = [] -> rows (narrowed name v df) = [].
Proof. unfold narrowed. simpl. now intros ->. Qed.

Lemma selectbox_elem_of (options : list value) (choice : nat) (v : value) :
  selectbox options choice = Some v -> v ∈ options.
Proof. unfold selectbox. apply list_elem_of_lookup_2. Qed.

Lemma narrowed_option_nonempty (name : string) (df : DataFrame)
    (options : list value) (choice : nat) (v : value) :
  options_of name df = Ok options -> selectbox options choice = Some v ->
  rows (narrowed name (Some v) df) <> [].
Proof.
  intros Ho Hs. apply options_of_spec in Ho as (Ho & _ & _).
  destruct (Ho v (selectbox_elem_of _ _ _ Hs)) as (Hna & r & Hr & Hf).
  assert (Hin : r ∈ rows (narrowed name (Some v) df)).
  { simpl. apply elem_of_filter. split; [assumption |].
    unfold keeps. rewrite Hf. now apply value_eqb_refl. }
  intros Hnil. rewrite Hnil in Hin. inversion Hin.
Qed.

(** One optional stage: its frame is empty exactly when its input is, or the
    box is ticked and returned nothing. *)
Lemma optional_filter_empty (ticked : bool) (name : string) (choice : nat)
    (fd fd' : DataFrame) (options : option (list value)) (chosen : option value) :
  optional_filter ticked name choice fd = Ok (options, chosen, fd') ->
  rows fd' = [] <-> rows fd = [] \/ (ticked = true /\ chosen = None).
Proof.
  intros H. apply optional_filter_Ok in H. destruct ticked.
  - destruct H as (o & Ho & [= -> -> ->]). split.
    + intros Hnil. destruct (selectbox o choice) as [v |] eqn:Hv; [| now right].
      exfalso. eapply narrowed_option_nonempty; eauto.
    + intros [Hnil | [_ Hnone]].
      * now apply rows_narrowed_empty.
      * rewrite Hnone. apply rows_narrowed_None.
  - injection H as -> -> ->. split; [auto |]. intros [? | [? _]]; [assumption | discriminate].
Qed.

(** X2: when the chain returns, the view has no row exactly when a select box
    that is in use returned nothing: an option that was offered always keeps
    at least one row. *)
Theorem view_is_empty_iff_a_box_is_empty (ui : controls) (data : DataFrame)
    (s : sidebar) :
  filter_chain ui data = Ok s ->
  rows (view s) = [] <->
  month s = None
  \/ (filter_day ui = true /\ day_of_week s = None)
  \/ (filter_hour ui = true /\ hour s = None).
Proof.
  intros H. apply filter_chain_Ok in H as (Hm & Hsel & Hd & Hh & ->).
  rewrite (optional_filter_empty _ _ _ _ _ _ _ Hh).
  rewrite (optional_filter_empty _ _ _ _ _ _ _ Hd).
  assert (Hmonth : rows (month_table data s) = [] <-> month s = None).
  { unfold month_table. split.
    - intros Hnil. destruct (month s) as [v |] eqn:Hv; [| reflexivity].
      exfalso. symmetry in Hsel.
      exact (narrowed_option_nonempty _ _ _ _ _ Hm Hsel Hnil).
    - intros ->. apply rows_narrowed_None. }
  rewrite Hmonth. tauto.
Qed.

(** ** The order of the options *)

Lemma float_ltb_asym (x y : float) : (x <? y)%float = true -> (y <? x)%float = false.
Proof.
  rewrite !FloatAxioms.ltb_spec. unfold SFltb.
  rewrite (SFcompare_antisym (Prim2SF x) (Prim2SF y)).
  now destruct (SFcompare (Prim2SF x) (Prim2SF y)) as [[] |].
Qed.

Lemma float_trichotomy (x y : float) :
  is_nan x = false -> is_nan y = false ->
  (x <? y)%float = true \/ (x =? y)%float = true \/ (y <? x)%float = true.
Proof.
  unfold is_nan. rewrite !FloatAxioms.ltb_spec, !FloatAxioms.eqb_spec.
  unfold SFltb, SFeqb. rewrite (SFcompare_antisym (Prim2SF x) (Prim2SF y)).
  intros Hx Hy.
  destruct (SFcompare_not_nan (Prim2SF x) (Prim2SF y)) as [c Hc].
  - intros Hn. rewrite Hn in Hx. discriminate.
  - intros Hn. rewrite Hn in Hy. discriminate.
  - rewrite Hc. destruct c; simpl; auto.
Qed.

Lemma string_ltb_asym (s t : string) : String.ltb s t = true -> String.ltb t s = false.
Proof.
  unfold String.ltb. rewrite (String.compare_antisym s t).
  now destruct (String.compare t s).
Qed.

Lemma string_trichotomy (s t : string) :
  String.ltb s t = true \/ String.eqb s t = true \/ String.ltb t s = true.
Proof.
  unfold String.ltb. rewrite (String.compare_antisym t s).
  destruct (String.compare s t) eqn:Hc; simpl; auto.
  apply String.compare_eq_iff in Hc. subst. right. left. apply String.eqb_refl.
Qed.

Lemma value_ltb_asym (a b : value) : value_ltb a b = true -> value_ltb b a = false.
Proof.
  unfold value_ltb.
  destruct (num_of a) as [x |] eqn:Ha, (num_of b) as [y |] eqn:Hb; try discriminate.
  - apply float_ltb_asym.
  - destruct a, b; try discriminate. apply string_ltb_asym.
Qed.

Lemma value_trichotomy (a b : value) :
  isna a = false -> isna b = false -> is_number a = is_number b ->
  value_ltb a b = true \/ value_eqb a b = true \/ value_ltb b a = true.
Proof.
  destruct a as [x | s | c], b as [y | t | d]; simpl;
    unfold is_number, value_ltb, value_eqb; simpl; intros Ha Hb Hk;
    try discriminate; try (now apply float_trichotomy); try apply string_trichotomy.
  - apply float_trichotomy; [assumption | now destruct d].
  - apply float_trichotomy; [now destruct c | assumption].
  - apply float_trichotomy; [now destruct c | now destruct d].
Qed.

Lemma insert_sorted_HdRel (a v : value) (l : list value) :
  not_after a v -> HdRel not_after a l -> HdRel not_after a (insert_sorted v l).
Proof.
  intros Hav Hal. destruct l as [| w l]; simpl; [now constructor |].
  destruct (value_ltb w v); constructor; [now inversion Hal | assumption].
Qed.

Lemma insert_sorted_Sorted (v : value) (l : list value) :
  Sorted not_after l -> Sorted not_after (insert_sorted v l).
Proof.
  induction 1 as [| w l Hl IH Hw]; simpl; [repeat constructor |].
  destruct (value_ltb w v) eqn:Hwv.
  - constructor; [assumption |]. apply insert_sorted_HdRel; [| assumption].
    now apply value_ltb_asym.
  - constructor; [now constructor |]. constructor. exact Hwv.
Qed.

Lemma sort_ascending_Sorted (l : list value) : Sorted not_after (sort_ascending l).
Proof.
  induction l as [| v l IH]; simpl; [constructor |]. now apply insert_sorted_Sorted.
Qed.

Lemma comparable_same_kind (l : list value) (a b : value) :
  comparable l = true -> a ∈ l -> b ∈ l -> is_number a = is_number b.
Proof.
  unfold comparable. intros H Ha Hb. apply list_elem_of_In in Ha, Hb.
  apply orb_true_iff in H as [H | H]; rewrite forallb_forall in H.
  - now rewrite (H a Ha), (H b Hb).
  - pose proof (H a Ha) as H1. pose proof (H b Hb) as H2.
    apply negb_true_iff in H1, H2. congruence.
Qed.

Lemma strictly_ascending (l : list value) :
  Sorted not_after l -> distinct l = true ->
  (forall a, a ∈ l -> isna a = false) ->
  (forall a b, a ∈ l -> b ∈ l -> is_number a = is_number b) ->
  Sorted (fun a b => value_ltb a b = true) l.
Proof.
  induction 1 as [| a l Hl IH Ha]; intros Hd Hna Hk; [constructor |].
  simpl in Hd. apply andb_true_iff in Hd as [Hd1 Hd2]. apply negb_true_iff in Hd1.
  constructor.
  - apply IH; [assumption | |].
    + intros x Hx. apply Hna. now right.
    + intros x y Hx Hy. apply Hk; now right.
  - destruct l as [| b l]; constructor.
    inversion Ha as [| ? ? Hab]; subst. unfold not_after in Hab.
    simpl in Hd1. apply orb_false_elim in Hd1 as [Hd1 _].
    destruct (value_trichotomy a b) as [H | [H | H]]; try congruence.
    + apply Hna. now left.
    + apply Hna. right. now left.
    + apply Hk; [now left | right; now left].
Qed.

(** X3: the options of a select box are in strictly ascending order: each
    one is [<] the next. *)
Theorem options_are_ascending (name : string) (df : DataFrame) (options : list value) :
  options_of name df = Ok options ->
  Sorted (fun a b => value_ltb a b = true) options.
Proof.
  intros H. pose proof (options_of_spec _ _ _ H) as (Hin & _ & Hd).
  unfold options_of in H. bind_inv H s Hs. unfold sorted in H.
  destruct (comparable (unique (dropna s))) eqn:Hc; [| discriminate].
  injection H as <-. apply strictly_ascending.
  - apply sort_ascending_Sorted.
  - assumption.
  - intros a Ha. now apply Hin.
  - intros a b Ha Hb. apply (comparable_same_kind _ _ _ Hc).
    + now rewrite <- (sort_ascending_perm (unique (dropna s))).
    + now rewrite <- (sort_ascending_perm (unique (dropna s))).
Qed.

(** ** Errors and composition of the filters *)

Lemma bind_Raise {A B : Type} (c : result A) (k : A -> result B) (e : exn) :
  c ≫= k = Raise e -> c = Raise e \/ exists a, c = Ok a /\ k a = Raise e.
Proof. destruct c as [a | e']; simpl; [eauto | intros [= ->]; auto]. Qed.

Lemma not_homogeneous_narrowed (name k : string) (v : option value) (df : DataFrame) :
  ~ homogeneous name (narrowed k v df) -> ~ homogeneous name df.
Proof. intros H Hh. apply H. now apply homogeneous_narrowed. Qed.

Lemma options_of_Raise (name : string) (df : DataFrame) (e : exn) :
  options_of name df = Raise e ->
  (e = KeyError name /\ ~ has_column name df)
  \/ (e = TypeError /\ has_column name df /\ ~ homogeneous name df).
Proof.
  unfold options_of. intros H. apply bind_Raise in H as [H | (s & Hs & H)].
  - left. unfold get_col in H.
    destruct (col_index name (columns df)) eqn:Hi; [discriminate |].
    injection H as <-. split; [reflexivity |]. unfold has_column. rewrite Hi.
    intros [x Hx]. discriminate.
  - right. unfold sorted in H.
    destruct (comparable (unique (dropna s))) eqn:Hc; [discriminate |].
    injection H as <-. split; [reflexivity |].
    split; [eapply get_col_has_column, Hs |].
    intros (s' & Hs' & Hc'). rewrite Hs in Hs'. injection Hs' as <-.
    rewrite (comparable_incl (dropna s)) in Hc; [discriminate | | assumption].
    intros x Hx. now apply elem_of_unique_from in Hx as [Hx _].
Qed.

Lemma optional_filter_Raise (ticked : bool) (name : string) (choice : nat)
    (fd : DataFrame) (e : exn) :
  optional_filter ticked name choice fd = Raise e ->
  ticked = true
  /\ ((e = KeyError name /\ ~ has_column name fd)
      \/ (e = TypeError /\ has_column name fd /\ ~ homogeneous name fd)).
Proof.
  unfold optional_filter. destruct ticked; [| discriminate].
  intros H. split; [reflexivity |].
  apply bind_Raise in H as [H | (o & Ho & H)]; [now apply options_of_Raise |].
  exfalso. unfold options_of in Ho. bind_inv Ho s Hs.
  rewrite filter_eq_spec in H by (eapply get_col_has_column, Hs). discriminate.
Qed.

(** X4: the filter chain raises only for a key column: [KeyError] for
    [month], or for [day_of_week] or [hour] when that filter is ticked, when
    the base table has no such column, and [TypeError] when a key column that
    is there mixes numbers and text. *)
Theorem filter_chain_raises_for_a_key_column (ui : controls) (data : DataFrame)
    (e : exn) :
  filter_chain ui data = Raise e ->
  (e = KeyError "month" /\ ~ has_column "month" data)
  \/ (e = KeyError "day_of_week" /\ filter_day ui = true
      /\ ~ has_column "day_of_week" data)
  \/ (e = KeyError "hour" /\ filter_hour ui = true /\ ~ has_column "hour" data)
  \/ (e = TypeError
      /\ exists name, name ∈ ["month"; "day_of_week"; "hour"]
                      /\ has_column name data /\ ~ homogeneous name data).
Proof.
  unfold filter_chain. intros H.
  apply bind_Raise in H as [H | (mo & Hmo & H)].
  { apply options_of_Raise in H as [[-> Hno] | (-> & Hc & Hh)]; [now left |].
    do 3 right. split; [reflexivity |]. exists "month". repeat split; auto.
    now left. }
  rewrite filter_eq_spec in H
    by (unfold options_of in Hmo; bind_inv Hmo s0 Hs0; eapply get_col_has_column, Hs0).
  rewrite bind_Ok_l in H.
  apply bind_Raise in H as [H | (d & Hd & H)].
  { apply optional_filter_Raise in H as [Hon [[-> Hno] | (-> & Hc & Hh)]].
    - right. left. auto.
    - do 3 right. split; [reflexivity |]. exists "day_of_week".
      split; [right; now left |]. split; [exact Hc |].
      eapply not_homogeneous_narrowed, Hh. }
  apply bind_Raise in H as [H | (h & Hh & H)]; [| discriminate].
  apply optional_filter_Ok in Hd.
  assert (Hcols : columns d.2 = columns data).
  { destruct (filter_day ui).
    - destruct Hd as (o & _ & ->). reflexivity.
    - subst d. reflexivity. }
  assert (Hhom : homogeneous "hour" data -> homogeneous "hour" d.2).
  { destruct (filter_day ui).
    - destruct Hd as (o & _ & ->). intros Hx. simpl.
      now repeat apply homogeneous_narrowed.
    - subst d. intros Hx. simpl. now apply homogeneous_narrowed. }
  apply optional_filter_Raise in H as [Hon [[-> Hno] | (-> & Hc & Hx)]].
  - right. right. left. repeat split; auto. unfold has_column in *. now rewrite <- Hcols.
  - do 3 right. split; [reflexivity |]. exists "hour".
    split; [do 2 right; now left |]. split; [| tauto].
    unfold has_column in *. now rewrite <- Hcols.
Qed.

Lemma optional_filter_returns_if (ticked : bool) (name : string) (choice : nat)
    (fd : DataFrame) :
  (ticked = true -> homogeneous name fd) ->
  exists options chosen,
    optional_filter ticked name choice fd
    = Ok (options, chosen, if ticked then narrowed name chosen fd else fd).
Proof.
  destruct ticked; intros H; [apply optional_filter_returns; auto |].
  unfold optional_filter. eauto.
Qed.

(** X5: the chain returns as soon as [month], and the columns of the filters
    that are ticked, are columns whose values are all numbers or all text: the
    column of a filter that is not ticked is never read. *)
Theorem filter_chain_reads_ticked_columns_only (ui : controls) (data : DataFrame) :
  homogeneous "month" data ->
  (filter_day ui = true -> homogeneous "day_of_week" data) ->
  (filter_hour ui = true -> homogeneous "hour" data) ->
  exists s, filter_chain ui data = Ok s.
Proof.
  intros Hm Hd Hh. unfold filter_chain.
  destruct (options_of_returns _ _ Hm) as [mo ->]. rewrite bind_Ok_l.
  rewrite filter_eq_spec by now apply homogeneous_has_column.
  rewrite bind_Ok_l.
  set (fd1 := narrowed "month" (selectbox mo (month_choice ui)) data).
  destruct (optional_filter_returns_if (filter_day ui) "day_of_week" (day_choice ui) fd1)
    as (dopts & dsel & ->).
  { intros Hon. now apply homogeneous_narrowed, Hd. }
  rewrite bind_Ok_l. cbn [snd].
  set (fd2 := if filter_day ui then narrowed "day_of_week" dsel fd1 else fd1).
  destruct (optional_filter_returns_if (filter_hour ui) "hour" (hour_choice ui) fd2)
    as (hopts & hsel & ->).
  { intros Hon. specialize (Hh Hon). unfold fd2.
    destruct (filter_day ui); repeat apply homogeneous_narrowed; assumption. }
  rewrite bind_Ok_l. eauto.
Qed.

Lemma filter_idem {A : Type} (f : A -> bool) (l : list A) :
  List.filter f (List.filter f l) = List.filter f l.
Proof.
  rewrite filter_filter_andb. apply filter_ext. intros x. now destruct (f x).
Qed.

(** X6: equality filters on any two columns give the same frame in either
    order, and a filter applied twice gives what it gives once. *)
Theorem equality_filters_commute_and_repeat (a b : string) (va vb : option value)
    (df : DataFrame) :
  has_column a df -> has_column b df ->
  (fd ← filter_eq a va df; filter_eq b vb fd)
  = (fd ← filter_eq b vb df; filter_eq a va fd)
  /\ (fd ← filter_eq a va df; filter_eq a va fd) = filter_eq a va df.
Proof.
  intros Ha Hb.
  rewrite (filter_eq_spec a va df Ha), (filter_eq_spec b vb df Hb).
  rewrite !bind_Ok_l, !filter_eq_spec by assumption.
  unfold narrowed. simpl. split; do 2 f_equal.
  - exact (filter_filter_comm (keeps df b vb) (keeps df a va) (rows df)).
  - exact (filter_idem (keeps df a va) (rows df)).
Qed.

(** ** Flags and masks *)

Lemma float_leb_ltb_trans (x y z : float) :
  (x <=? y)%float = true -> (y <? z)%float = true -> (x <? z)%float = true.
Proof.
  rewrite FloatAxioms.leb_spec, !FloatAxioms.ltb_spec. unfold SFleb, SFltb.
  destruct (SFcompare (Prim2SF x) (Prim2SF y)) as [c |] eqn:Hxy; [| discriminate].
  destruct (SFcompare (Prim2SF y) (Prim2SF z)) as [[] |] eqn:Hyz; try discriminate.
  intros Hc _.
  rewrite (SFcompare_trans (Prim2SF x) (Prim2SF y) (Prim2SF z) c); auto.
  intros ->. discriminate.
Qed.

Lemma filled_WriteThrough_not_nan (f : float) : is_nan (filled WriteThrough f) = false.
Proof. simpl. destruct (is_nan f) eqn:Hf; [reflexivity | exact Hf]. Qed.

Lemma field_None (df : DataFrame) (name : string) (r : row) :
  ~ has_column name df -> field df name r = None.
Proof.
  unfold has_column, field. destruct (col_index name (columns df)); [| auto].
  intros []. eauto.
Qed.

Lemma has_column_dec (name : string) (df : DataFrame) :
  has_column name df \/ ~ has_column name df.
Proof.
  unfold has_column. destruct (col_index name (columns df)); [left; eauto |].
  right. intros [x Hx]. discriminate.
Qed.

Lemma zip_with_flag (threshold : float) (t p : list float) :
  zip_with (flag threshold) t p
  = map (fun s => (threshold <? s)%float) (zip_with score t p).
Proof.
  revert p. induction t as [| x t IH]; intros [| y p]; simpl; try reflexivity.
  now rewrite IH.
Qed.

Lemma mapM_as_bool (flags : list bool) : mapM as_bool (map VBool flags) = Ok flags.
Proof. induction flags as [| b l IH]; simpl; [reflexivity |]. now rewrite IH. Qed.

Lemma flagged_of_column (df : DataFrame) (flags : list bool) :
  get_col "anomaly" df = Ok (map VBool flags) ->
  map (flagged df) (rows df) = flags.
Proof.
  unfold get_col, flagged, field.
  destruct (col_index "anomaly" (columns df)) as [i |]; [| discriminate].
  intros [= H]. revert flags H.
  induction (rows df) as [| r l IH]; intros [| b flags] H; simpl in *;
    try discriminate; [reflexivity |].
  injection H as Hb H. rewrite Hb, (IH _ H). now destruct b.
Qed.

Lemma anomalies_of_spec (df : DataFrame) (flags : list bool) :
  get_col "anomaly" df = Ok (map VBool flags) ->
  anomalies_of df = Ok (bool_index flags df)
  /\ rows (bool_index flags df) = List.filter (flagged df) (rows df).
Proof.
  intros H. unfold anomalies_of. rewrite H, bind_Ok_l, mapM_as_bool, bind_Ok_l.
  split; [reflexivity |]. simpl.
  rewrite <- (flagged_of_column _ _ H) at 1. apply select_map.
Qed.

Lemma length_select {A : Type} (mask : list bool) (l : list A) :
  length mask = length l ->
  length (select mask l) = length (List.filter (fun b => b) mask).
Proof.
  revert l. induction mask as [| b mask IH]; intros [| x l] H; simpl in *;
    try lia; try reflexivity.
  destruct b; simpl; rewrite IH; lia.
Qed.

Lemma count_flags_mono (t p : list float) (x y : float) :
  (x <=? y)%float = true ->
  length (List.filter (fun b => b) (zip_with (flag y) t p))
  <= length (List.filter (fun b => b) (zip_with (flag x) t p)).
Proof.
  intros Hxy. revert p. induction t as [| u t IH]; intros [| v p]; simpl; try lia.
  specialize (IH p).
  destruct (flag y u v) eqn:Hy, (flag x u v) eqn:Hx; simpl; try lia.
  unfold flag in Hy, Hx. rewrite (float_leb_ltb_trans _ _ _ Hxy Hy) in Hx. discriminate.
Qed.

(** ** The deriver and the anomaly table *)

(** X7: on a rectangular frame with a row whose [truth] and [predictions]
    hold numbers and text, when the rendering calls return, the deriver keeps
    the number of rows, keeps every column in its place, adds [anomaly] and
    then [anomaly_score] after the last column when they are new, and leaves
    every cell of every other column as it was. *)
Theorem derive_keeps_other_columns (parse : string -> option float)
    (show_map show_tables : DataFrame -> result unit)
    (m : chained_access) (threshold : float) (df : DataFrame) :
  rectangular df -> rows df <> [] ->
  number_or_text "truth" df -> number_or_text "predictions" df ->
  renders parse m threshold show_map show_tables df ->
  exists df',
    derive parse show_map show_tables m threshold df = Ok df'
    /\ length (rows df') = length (rows df)
    /\ columns df' = add_column "anomaly_score" (add_column "anomaly" (columns df))
    /\ forall n k r r',
         n <> "truth" -> n <> "predictions" -> n <> "anomaly" ->
         n <> "anomaly_score" ->
         rows df !! k = Some r -> rows df' !! k = Some r' ->
         field df' n r' = field df n r.
Proof.
  intros Hr _ [Ht HbT] [Hp HbP] Hshow.
  destruct (has_column_get_col _ _ Ht) as [T HT].
  destruct (has_column_get_col _ _ Hp) as [P HP].
  destruct (derive_spec parse threshold show_map show_tables m df T P Hr HT HP
              (HbT T HT) (HbP P HP) Hshow)
    as (df' & Hrun & _ & _ & _ & Hlen & Hcols & Hother).
  exists df'. repeat split; try assumption.
  intros n k r r' H1 H2 H3 H4 Hk Hk'. specialize (Hother n H1 H2 H3 H4).
  destruct (has_column_dec n df) as [Hn | Hn].
  - destruct (has_column_get_col _ _ Hn) as [s Hs].
    rewrite Hs in Hother.
    now rewrite (get_col_field _ _ _ _ _ Hother Hk'), (get_col_field _ _ _ _ _ Hs Hk).
  - rewrite (field_None df n r Hn). apply field_None. intros Hn'.
    destruct (has_column_get_col _ _ Hn') as [s Hs].
    rewrite Hs in Hother. symmetry in Hother.
    apply Hn. eapply get_col_has_column, Hother.
Qed.

(** X8: on a rectangular frame with a row and no boolean in [truth] and
    [predictions], the statements of the deriver raise only [KeyError]: for
    [truth] when that column is missing, for [predictions] when [truth] is
    there and [predictions] is not.  Any other error of the deriver is the
    error of a rendering call, on the frame that lines 51-60 returned. *)
Theorem derive_raises_for_a_missing_column (parse : string -> option float)
    (show_map show_tables : DataFrame -> result unit)
    (m : chained_access) (threshold : float) (df : DataFrame) (e : exn) :
  rectangular df -> rows df <> [] ->
  no_boolean "truth" df -> no_boolean "predictions" df ->
  derive parse show_map show_tables m threshold df = Raise e ->
  (e = KeyError "truth" /\ ~ has_column "truth" df)
  \/ (e = KeyError "predictions" /\ has_column "truth" df
      /\ ~ has_column "predictions" df)
  \/ (exists fd,
        flag_anomalies parse m threshold df = Ok fd
        /\ (show_map fd = Raise e
            \/ (show_map fd = Ok tt /\ show_tables fd = Raise e))).
Proof.
  intros Hr _ HbT HbP H.
  destruct (has_column_dec "truth" df) as [Ht | Ht].
  - destruct (has_column_dec "predictions" df) as [Hp | Hp].
    + right. right.
      destruct (has_column_get_col _ _ Ht) as [T HT].
      destruct (has_column_get_col _ _ Hp) as [P HP].
      destruct (flag_anomalies_spec parse threshold m df T P Hr HT HP
                  (HbT T HT) (HbP P HP)) as (df1 & Hrun & Hnf & Ha & _).
      exists df1. split; [assumption |].
      revert H. unfold derive. rewrite Hrun, bind_Ok_l.
      destruct (show_map df1) as [[] | e1]; [| intros [= <-]; now left].
      rewrite bind_Ok_l.
      rewrite (flag_anomalies_fixed parse threshold m df1 _ _ Hnf
                 (coerced_stable parse m T) (coerced_stable parse m P) Ha), bind_Ok_l.
      destruct (show_tables df1) as [[] | e2]; [| intros [= <-]; right; now split].
      rewrite bind_Ok_l.
      destruct (score_anomalies_spec threshold df1 _ _ Hnf) as (df2 & -> & _).
      discriminate.
    + right. left. split; [| auto].
      destruct (has_column_get_col _ _ Ht) as [T HT].
      revert H. unfold derive, flag_anomalies, coerce, coerce_column.
      rewrite HT, !bind_Ok_l. rewrite get_col_missing; [now intros [= <-] |].
      unfold has_column. rewrite columns_set_col, add_column_present by exact Ht.
      exact Hp.
  - left. split; [| assumption].
    revert H. unfold derive, flag_anomalies, coerce, coerce_column.
    rewrite (get_col_missing _ _ Ht). now intros [= <-].
Qed.

(** X9: where the in-place fill reaches the frame, on a rectangular frame
    with a row whose [truth] and [predictions] hold numbers and text, no
    [truth] and no [predictions] cell of the derived table is missing,
    whatever the conversion reads (a text that spells NaN included). *)
Theorem no_value_is_missing_after_coercion (parse : string -> option float)
    (show_map show_tables : DataFrame -> result unit)
    (threshold : float) (df : DataFrame) :
  rectangular df -> rows df <> [] ->
  number_or_text "truth" df -> number_or_text "predictions" df ->
  renders parse WriteThrough threshold show_map show_tables df ->
  exists df',
    derive parse show_map show_tables WriteThrough threshold df = Ok df'
    /\ length (rows df') = length (rows df)
    /\ forall r', r' ∈ rows df' ->
         present df' "truth" r' /\ present df' "predictions" r'.
Proof.
  intros Hr _ Ht Hp Hshow.
  destruct (derive_rows parse threshold show_map show_tables WriteThrough df
              Hr Ht Hp Hshow) as (df' & Hrun & Hlen & Hrows).
  exists df'. split; [assumption |]. split; [assumption |]. intros r' Hin.
  apply list_elem_of_lookup in Hin as [k Hk].
  destruct (lookup_lt_is_Some_2 (rows df) k) as [r Hrk].
  { rewrite <- Hlen. eapply lookup_lt_Some, Hk. }
  destruct (Hrows k r Hrk) as (r0 & ct & cp & Hk0 & _ & _ & H1 & H2 & _).
  assert (r0 = r') as -> by congruence.
  split; eexists; (split; [eassumption |]); apply filled_WriteThrough_not_nan.
Qed.

(** X10: on a rectangular frame with a row whose [truth] and [predictions]
    hold numbers and text, when the rendering calls return, the frame the map
    reads (after line 60) is the frame the tables read (after line 95), and
    it holds the same [truth], [predictions] and [anomaly] columns as the
    frame that is exported (after line 143). *)
Theorem first_flag_is_final_flag (parse : string -> option float)
    (show_map show_tables : DataFrame -> result unit)
    (m : chained_access) (threshold : float) (df : DataFrame) :
  rectangular df -> rows df <> [] ->
  number_or_text "truth" df -> number_or_text "predictions" df ->
  renders parse m threshold show_map show_tables df ->
  exists df1 df2 t p a,
    flag_anomalies parse m threshold df = Ok df1
    /\ flag_anomalies parse m threshold df1 = Ok df1
    /\ derive parse show_map show_tables m threshold df = Ok df2
    /\ get_col "truth" df1 = Ok t /\ get_col "truth" df2 = Ok t
    /\ get_col "predictions" df1 = Ok p /\ get_col "predictions" df2 = Ok p
    /\ get_col "anomaly" df1 = Ok a /\ get_col "anomaly" df2 = Ok a.
Proof.
  intros Hr _ [Ht HbT] [Hp HbP] Hshow.
  destruct (has_column_get_col _ _ Ht) as [T HT].
  destruct (has_column_get_col _ _ Hp) as [P HP].
  destruct (flag_anomalies_spec parse threshold m df T P Hr HT HP (HbT T HT) (HbP P HP))
    as (df1 & Hrun1 & Hnf & Ha1 & _).
  pose proof (flag_anomalies_fixed parse threshold m df1 _ _ Hnf
                (coerced_stable parse m T) (coerced_stable parse m P) Ha1) as Hfix.
  destruct Hnf as (_ & Ht1 & Hp1).
  destruct (derive_spec parse threshold show_map show_tables m df T P Hr HT HP
              (HbT T HT) (HbP P HP) Hshow)
    as (df2 & Hrun2 & (_ & Ht2 & Hp2) & _ & Ha2 & _).
  rewrite <- zip_with_flag in Ha2.
  exists df1, df2. eauto 12.
Qed.

Section AnomalyTable.
Variable parse : string -> option float.

Lemma flag_anomalies_rows (m : chained_access) (threshold : float) (df : DataFrame) :
  rectangular df -> number_or_text "truth" df -> number_or_text "predictions" df ->
  exists df1 t p,
    flag_anomalies parse m threshold df = Ok df1
    /\ length t = length (rows df1) /\ length p = length (rows df1)
    /\ get_col "truth" df1 = Ok (map VFloat t)
    /\ get_col "predictions" df1 = Ok (map VFloat p)
    /\ get_col "anomaly" df1 = Ok (map VBool (zip_with (flag threshold) t p))
    /\ t = map (coerced parse m) (value_or (get_col "truth" df) [])
    /\ p = map (coerced parse m) (value_or (get_col "predictions" df) [])
    /\ flag_anomalies parse m threshold df1 = Ok df1.
Proof.
  intros Hr [Ht HbT] [Hp HbP].
  destruct (has_column_get_col _ _ Ht) as [T HT].
  destruct (has_column_get_col _ _ Hp) as [P HP].
  destruct (flag_anomalies_spec parse threshold m df T P Hr HT HP (HbT T HT) (HbP P HP))
    as (df1 & Hrun1 & Hnf & Ha1 & _).
  pose proof (flag_anomalies_fixed parse threshold m df1 _ _ Hnf
                (coerced_stable parse m T) (coerced_stable parse m P) Ha1) as Hfix.
  destruct (numeric_frame_lengths _ _ _ Hnf) as [Hlt Hlp].
  destruct Hnf as (_ & Ht1 & Hp1).
  exists df1, (map (coerced parse m) T), (map (coerced parse m) P).
  rewrite HT, HP. simpl. auto 10.
Qed.

(** X11: on a rectangular frame with a row whose [truth] and [predictions]
    hold numbers and text within 2^52, line 97 returns, on the frame of lines
    51-95, the rows whose flag is [True], in their order and under the same
    columns; in each of them [abs(truth - predictions)] is above the
    threshold. *)
Theorem anomalies_are_the_flagged_rows (m : chained_access) (threshold : float)
    (df : DataFrame) :
  rectangular df -> rows df <> [] ->
  number_or_text "truth" df -> number_or_text "predictions" df ->
  small_numbers parse "truth" df -> small_numbers parse "predictions" df ->
  exists df1 a,
    flag_anomalies parse m threshold df = Ok df1
    /\ flag_anomalies parse m threshold df1 = Ok df1
    /\ anomalies_of df1 = Ok a
    /\ columns a = columns df1
    /\ rows a = List.filter (flagged df1) (rows df1)
    /\ forall r, r ∈ rows a ->
         exists t p,
           field a "truth" r = Some (VFloat t)
           /\ field a "predictions" r = Some (VFloat p)
           /\ (threshold <? abs (t - p))%float = true.
Proof.
  intros Hr _ Ht Hp _ _.
  destruct (flag_anomalies_rows m threshold df Hr Ht Hp)
    as (df1 & t & p & Hrun & Hlt & Hlp & Ht1 & Hp1 & Ha1 & _ & _ & Hfix).
  destruct (anomalies_of_spec _ _ Ha1) as [Hrun2 Hrows].
  exists df1, (bool_index (zip_with (flag threshold) t p) df1).
  split; [assumption |]. split; [assumption |].
  split; [assumption |]. split; [reflexivity |].
  split; [assumption |].
  intros r Hin. rewrite Hrows in Hin. apply elem_of_filter in Hin as [Hin Hf].
  apply list_elem_of_lookup in Hin as [k Hk].
  change (field (bool_index (zip_with (flag threshold) t p) df1))
    with (field df1).
  pose proof (get_col_field _ _ _ _ _ Ht1 Hk) as Hft.
  pose proof (get_col_field _ _ _ _ _ Hp1 Hk) as Hfp.
  pose proof (get_col_field _ _ _ _ _ Ha1 Hk) as Hfa.
  rewrite lookup_map in Hft, Hfp. rewrite lookup_map, lookup_zip_with in Hfa.
  destruct (lookup_lt_is_Some_2 t k) as [x Hx].
  { rewrite Hlt. eapply lookup_lt_Some, Hk. }
  destruct (lookup_lt_is_Some_2 p k) as [y Hy].
  { rewrite Hlp. eapply lookup_lt_Some, Hk. }
  rewrite Hx in Hft, Hfa. rewrite Hy in Hfp, Hfa. simpl in Hft, Hfp, Hfa.
  exists x, y. split; [assumption |]. split; [assumption |].
  unfold flagged in Hf. rewrite Hfa in Hf. unfold flag, score in Hf.
  now destruct (threshold <? abs (x - y))%float.
Qed.

(** X12: on a rectangular frame with a row whose [truth] and [predictions]
    hold numbers and text, a threshold that is not lower never gives more
    anomalies. *)
Theorem higher_threshold_fewer_anomalies (m : chained_access) (low high : float)
    (df : DataFrame) :
  rectangular df -> rows df <> [] ->
  number_or_text "truth" df -> number_or_text "predictions" df ->
  (low <=? high)%float = true ->
  exists df_low df_high a_low a_high,
    flag_anomalies parse m low df = Ok df_low
    /\ anomalies_of df_low = Ok a_low
    /\ flag_anomalies parse m high df = Ok df_high
    /\ anomalies_of df_high = Ok a_high
    /\ length (rows a_high) <= length (rows a_low).
Proof.
  intros Hr _ Ht Hp Hle.
  destruct (flag_anomalies_rows m low df Hr Ht Hp)
    as (df1 & t & p & Hrun1 & Hlt1 & Hlp1 & _ & _ & Ha1 & Et & Ep & _).
  destruct (flag_anomalies_rows m high df Hr Ht Hp)
    as (df2 & t' & p' & Hrun2 & Hlt2 & Hlp2 & _ & _ & Ha2 & Et' & Ep' & _).
  assert (t' = t) as -> by congruence. assert (p' = p) as -> by congruence.
  destruct (anomalies_of_spec _ _ Ha1) as [Ho1 _].
  destruct (anomalies_of_spec _ _ Ha2) as [Ho2 _].
  do 4 eexists. split; [eassumption |]. split; [eassumption |].
  split; [eassumption |]. split; [eassumption |].
  simpl. rewrite !length_select by (rewrite length_zip_with; lia).
  now apply count_flags_mono.
Qed.

End AnomalyTable.

(** X16: on a rectangular frame, after [df[name] = s] with one entry per row,
    [df[name]] is [s], every other column reads as before, the column keeps
    its place or is added last, the frame is rectangular, and assigning [s]
    again changes nothing. *)
Theorem assign_then_read (name : string) (s : list value) (df : DataFrame) :
  rectangular df -> length s = length (rows df) ->
  get_col name (set_col name s df) = Ok s
  /\ (forall n, n <> name -> get_col n (set_col name s df) = get_col n df)
  /\ columns (set_col name s df) = add_column name (columns df)
  /\ rectangular (set_col name s df)
  /\ set_col name s (set_col name s df) = set_col name s df.
Proof.
  intros Hr Hlen. destruct (set_col_step name s df Hr Hlen) as (H1 & H2 & H3 & H4).
  repeat split; try assumption.
  - apply columns_set_col.
  - now apply set_col_id.
Qed.

(** ** The columns of the anomaly table (line 98) *)

Lemma positions_Ok (cols names : list string) (idx : list nat) :
  mapM (position_of cols) names = Ok idx ->
  Forall2 (fun n i => col_index n cols = Some i) names idx.
Proof.
  revert idx. induction names as [| n names IH]; intros idx; cbn [mapM].
  - intros [= <-]. constructor.
  - intros H. bind_inv H i Hi. bind_inv H is' His. injection H as <-.
    constructor; [| now apply IH].
    unfold position_of in Hi. destruct (col_index n cols); [congruence | discriminate].
Qed.

Lemma positions_returns (cols names : list string) :
  (forall n, n ∈ names -> is_Some (col_index n cols)) ->
  exists idx, mapM (position_of cols) names = Ok idx.
Proof.
  induction names as [| n names IH]; intros H; cbn [mapM]; [eauto |].
  destruct (H n) as [i Hi]; [now left |].
  destruct IH as [idx Hidx]; [intros x Hx; apply H; now right |].
  assert (Hp : position_of cols n = Ok i) by (unfold position_of; now rewrite Hi).
  rewrite Hp, bind_Ok_l, Hidx, bind_Ok_l. eauto.
Qed.

Lemma positions_Raise (cols names : list string) (e : exn) :
  mapM (position_of cols) names = Raise e ->
  exists n, e = KeyError n /\ n ∈ names /\ col_index n cols = None.
Proof.
  induction names as [| n names IH]; cbn [mapM]; [discriminate |].
  intros H. apply bind_Raise in H as [H | (i & Hi & H)].
  - unfold position_of in H. destruct (col_index n cols) eqn:Hn; [discriminate |].
    injection H as <-. exists n. split; [reflexivity |]. split; [now left | assumption].
  - apply bind_Raise in H as [H | (idx & _ & H)]; [| discriminate].
    destruct (IH H) as (x & Hx & Hin & Hnone).
    exists x. split; [assumption |]. split; [now right | assumption].
Qed.

Lemma cell_map_positions (idx : list nat) (j i : nat) (r : row) :
  idx !! j = Some i -> cell j (map (fun i => cell i r) idx) = cell i r.
Proof.
  intros H. unfold cell at 1. now rewrite nth_lookup, lookup_map, H.
Qed.

Lemma select_columns_spec (names : list string) (df : DataFrame) :
  (forall n, n ∈ names -> has_column n df) ->
  exists d,
    select_columns names df = Ok d
    /\ columns d = names
    /\ length (rows d) = length (rows df)
    /\ forall k r, rows df !! k = Some r ->
         exists r',
           rows d !! k = Some r'
           /\ length r' = length names
           /\ forall n, n ∈ names -> field d n r' = field df n r.
Proof.
  intros Hall. unfold select_columns.
  destruct (positions_returns (columns df) names Hall) as [idx Hidx].
  rewrite Hidx, bind_Ok_l. eexists. split; [reflexivity |].
  split; [reflexivity |]. split; [simpl; apply length_map |].
  intros k r Hk. simpl. exists (map (fun i => cell i r) idx).
  apply positions_Ok in Hidx.
  split; [now rewrite lookup_map, Hk |].
  split; [rewrite length_map; symmetry; eapply Forall2_length, Hidx |].
  intros n Hn. unfold field at 1. simpl.
  apply col_index_elem_of in Hn as [j Hj]. rewrite Hj.
  pose proof (col_index_lookup _ _ _ Hj) as Hnj.
  destruct (Forall2_lookup_l _ _ _ _ _ Hidx Hnj) as (i & Hi & Hni).
  rewrite (cell_map_positions _ _ _ _ Hi). unfold field. now rewrite Hni.
Qed.

(** X13: when the frame has the eight listed columns, line 98 returns a table
    with exactly those columns in the listed order, one row per row of the
    frame, each holding the frame's cells under those columns. *)
Theorem anomaly_details_shows_the_listed_columns (anomalies : DataFrame) :
  (forall n, n ∈ detail_columns -> has_column n anomalies) ->
  exists d,
    anomaly_details anomalies = Ok d
    /\ columns d = detail_columns
    /\ length (rows d) = length (rows anomalies)
    /\ forall k r, rows anomalies !! k = Some r ->
         exists r',
           rows d !! k = Some r'
           /\ length r' = length detail_columns
           /\ forall n, n ∈ detail_columns -> field d n r' = field anomalies n r.
Proof. apply select_columns_spec. Qed.

(** X14: line 98 raises only [KeyError], naming a listed column the frame
    does not have. *)
Theorem anomaly_details_raises_for_a_missing_column (anomalies : DataFrame) (e : exn) :
  anomaly_details anomalies = Raise e ->
  exists n, e = KeyError n /\ n ∈ detail_columns /\ ~ has_column n anomalies.
Proof.
  unfold anomaly_details, select_columns. intros H.
  apply bind_Raise in H as [H | (idx & _ & H)]; [| discriminate].
  apply positions_Raise in H as (n & -> & Hin & Hnone).
  exists n. split; [reflexivity |]. split; [assumption |].
  unfold has_column. rewrite Hnone. intros [x Hx]. discriminate.
Qed.

(** ** The anomaly summary (line 107) *)

Lemma float_eqb_trans (x y z : float) :
  (x =? y)%float = true -> (y =? z)%float = true -> (x =? z)%float = true.
Proof.
  rewrite !FloatAxioms.eqb_spec. intros H1 H2.
  destruct (SFeqb_true _ _ H1) as [(s & t & -> & Hy) | [-> Hn]]; [| assumption].
  rewrite Hy in H2. now destruct (Prim2SF z).
Qed.

Lemma value_eqb_trans (a b c : value) :
  value_eqb a b = true -> value_eqb b c = true -> value_eqb a c = true.
Proof.
  destruct a as [x | s | u], b as [y | t | v], c as [z | w | q];
    unfold value_eqb; simpl; try (intros; discriminate); try apply float_eqb_trans.
  intros H1%String.eqb_eq H2%String.eqb_eq. subst. apply String.eqb_refl.
Qed.

Lemma filter_split_perm {A : Type} (f : A -> bool) (l : list A) :
  Permutation (List.filter f l ++ List.filter (fun x => negb (f x)) l) l.
Proof.
  induction l as [| x l IH]; simpl; [reflexivity |].
  destruct (f x); simpl.
  - now constructor.
  - rewrite <- Permutation_middle. now constructor.
Qed.

Lemma group_keys_perm (s : list value) :
  Permutation (group_keys s) (unique (dropna s)).
Proof.
  unfold group_keys. rewrite !sort_ascending_perm. apply filter_split_perm.
Qed.

Lemma list_sum_perm (l l' : list nat) : Permutation l l' -> list_sum l = list_sum l'.
Proof. induction 1; simpl; lia. Qed.

(** Among keys no two of which are [==], a value is [==] to one key at most. *)
Lemma one_key_matches (keys : list value) (c : value) :
  distinct keys = true ->
  (exists k, k ∈ keys /\ value_eqb c k = true) ->
  length (List.filter (value_eqb c) keys) = 1.
Proof.
  induction keys as [| k0 ks IH]; intros Hd (k & Hk & Hck); [inversion Hk |].
  simpl in Hd. apply andb_true_iff in Hd as [Hd1 Hd2]. apply negb_true_iff in Hd1.
  simpl. destruct (value_eqb c k0) eqn:Hc0.
  - simpl. f_equal. apply length_zero_iff_nil.
    destruct (List.filter (value_eqb c) ks) as [| k' l] eqn:Hf; [reflexivity |].
    exfalso. assert (Hk' : k' ∈ List.filter (value_eqb c) ks) by (rewrite Hf; now left).
    apply elem_of_filter in Hk' as [Hin Hck'].
    assert (H0 : value_eqb k0 k' = true).
    { eapply value_eqb_trans; [apply value_eqb_sym, Hc0 | exact Hck']. }
    assert (He : existsb (value_eqb k0) ks = true).
    { apply existsb_exists. exists k'. split; [now apply list_elem_of_In | assumption]. }
    congruence.
  - apply IH; [assumption |]. apply elem_of_cons in Hk as [-> | Hk]; [congruence |].
    eauto.
Qed.

Lemma sum_of_group_counts (keys l : list value) :
  distinct keys = true ->
  (forall c, c ∈ l -> exists k, k ∈ keys /\ value_eqb c k = true) ->
  list_sum (map (fun k => length (List.filter (fun c => value_eqb c k) l)) keys)
  = length l.
Proof.
  intros Hd. induction l as [| c l IH]; intros Hcov.
  - clear. induction keys as [| k ks IHk]; simpl; [reflexivity | exact IHk].
  - assert (Hone := one_key_matches keys c Hd (Hcov c ltac:(now left))).
    assert (IH' := IH (fun x Hx => Hcov x ltac:(now right))).
    simpl. rewrite <- IH'. clear IH IH' Hcov Hd.
    assert (Hgen : forall ks,
      list_sum (map (fun k => length (if value_eqb c k
                                       then c :: List.filter (fun c0 => value_eqb c0 k) l
                                       else List.filter (fun c0 => value_eqb c0 k) l)) ks)
      = length (List.filter (value_eqb c) ks)
        + list_sum (map (fun k => length (List.filter (fun c0 => value_eqb c0 k) l)) ks)).
    { induction ks as [| k ks IHk]; simpl; [reflexivity |].
      rewrite IHk. destruct (value_eqb c k); simpl; lia. }
    rewrite Hgen, Hone. reflexivity.
Qed.

Lemma filter_eqb_dropna (k : value) (s : list value) :
  List.filter (fun c => value_eqb c k) (dropna s)
  = List.filter (fun c => value_eqb c k) s.
Proof.
  unfold dropna. rewrite filter_filter_andb. apply filter_ext. intros c.
  destruct (value_eqb c k) eqn:Hc; [| now rewrite andb_false_r].
  now rewrite (value_eqb_not_na _ _ Hc).
Qed.

Lemma length_filter_cells (i : nat) (k : value) (l : list row) :
  length (List.filter (fun c => value_eqb c k) (map (cell i) l))
  = length (List.filter (fun r => value_eqb (cell i r) k) l).
Proof.
  induction l as [| r l IH]; simpl; [reflexivity |].
  destruct (value_eqb (cell i r) k); simpl; now rewrite IH.
Qed.

(** X15: the counts of line 107 add up to the number of rows whose cluster is
    not missing; the clusters listed are not missing and no two are [==];
    each count is at least one and is the number of rows of that cluster. *)
Theorem anomaly_summary_counts_every_clustered_row (anomalies : DataFrame)
    (s : list value) :
  get_col "spatial_cluster_x" anomalies = Ok s ->
  exists g,
    anomaly_summary anomalies = Ok g
    /\ list_sum (map snd g) = length (dropna s)
    /\ distinct (map fst g) = true
    /\ forall k n, (k, n) ∈ g ->
         isna k = false /\ 1 <= n
         /\ n = length (List.filter (fun r => keeps anomalies "spatial_cluster_x" (Some k) r)
                                    (rows anomalies)).
Proof.
  intros Hs. unfold anomaly_summary. rewrite Hs, bind_Ok_l.
  eexists. split; [reflexivity |].
  pose proof (group_keys_perm s) as Hperm.
  assert (Hd : distinct (group_keys s) = true).
  { rewrite (distinct_perm _ _ Hperm). apply distinct_unique_from. }
  assert (Hkeys : forall k, k ∈ group_keys s -> k ∈ s /\ isna k = false).
  { intros k Hk. rewrite Hperm in Hk. apply elem_of_unique_from in Hk as [Hk _].
    now apply elem_of_dropna in Hk. }
  unfold group_sizes. rewrite !map_map. simpl. split; [| split].
  - rewrite <- (sum_of_group_counts (group_keys s) (dropna s) Hd).
    + f_equal. apply map_ext. intros k. now rewrite filter_eqb_dropna.
    + intros c Hc. pose proof Hc as Hc'. apply elem_of_dropna in Hc' as [_ Hna].
      destruct (unique_from_covers [] _ _ Hc Hna) as [Hx | (o & Ho & Hco)];
        [discriminate |].
      exists o. split; [| assumption]. now rewrite Hperm.
  - rewrite map_id. exact Hd.
  - intros k n Hin. apply elem_of_map in Hin as (k' & [= <- <-] & Hk').
    destruct (Hkeys _ Hk') as [Hks Hna]. split; [assumption |].
    assert (Hcount : length (List.filter (fun c => value_eqb c k') s)
                     = length (List.filter
                                 (fun r => keeps anomalies "spatial_cluster_x" (Some k') r)
                                 (rows anomalies))).
    { revert Hs. unfold get_col, keeps, field.
      destruct (col_index "spatial_cluster_x" (columns anomalies)) as [i |];
        [| discriminate].
      intros [= <-]. apply length_filter_cells. }
    split; [| exact Hcount].
    assert (Hin : k' ∈ List.filter (fun c => value_eqb c k') s).
    { apply elem_of_filter. split; [assumption | now apply value_eqb_refl]. }
    destruct (List.filter (fun c => value_eqb c k') s); [inversion Hin | simpl; lia].
Qed.


(** ** The further properties on the sample tables *)

Lemma sample_nodes_rectangular : rectangular sample_nodes.
Proof. unfold rectangular, sample_nodes. simpl. repeat constructor. Defined.

Lemma sample_nodes_has_truth : has_column "truth" sample_nodes.
Proof. eexists. reflexivity. Defined.

Lemma sample_nodes_has_predictions : has_column "predictions" sample_nodes.
Proof. eexists. reflexivity. Defined.

Lemma view_is_the_matching_rows_sample :
  columns (view june_day1_hour9_sidebar) = columns sample
  /\ rows (view june_day1_hour9_sidebar)
     = List.filter (matches june_day1_hour9 sample june_day1_hour9_sidebar)
                   (rows sample).
Proof.
  apply (view_is_the_matching_rows june_day1_hour9 sample june_day1_hour9_sidebar).
  vm_compute. reflexivity.
Defined.

Lemma view_is_empty_iff_a_box_is_empty_sample :
  rows (view nothing_chosen_sidebar) = [] <->
  month nothing_chosen_sidebar = None
  \/ (filter_day nothing_chosen = true /\ day_of_week nothing_chosen_sidebar = None)
  \/ (filter_hour nothing_chosen = true /\ hour nothing_chosen_sidebar = None).
Proof.
  apply (view_is_empty_iff_a_box_is_empty nothing_chosen sample nothing_chosen_sidebar).
  vm_compute. reflexivity.
Defined.

Lemma options_are_ascending_sample :
  Sorted (fun a b => value_ltb a b = true) [VFloat 6; VFloat 7].
Proof.
  apply (options_are_ascending "month" sample [VFloat 6; VFloat 7]).
  vm_compute. reflexivity.
Defined.

Lemma filter_chain_raises_for_a_key_column_sample :
  (KeyError "day_of_week" = KeyError "month" /\ ~ has_column "month" sample_month_only)
  \/ (KeyError "day_of_week" = KeyError "day_of_week"
      /\ filter_day june_day1_hour9 = true
      /\ ~ has_column "day_of_week" sample_month_only)
  \/ (KeyError "day_of_week" = KeyError "hour" /\ filter_hour june_day1_hour9 = true
      /\ ~ has_column "hour" sample_month_only)
  \/ (KeyError "day_of_week" = TypeError
      /\ exists name, name ∈ ["month"; "day_of_week"; "hour"]
                      /\ has_column name sample_month_only
                      /\ ~ homogeneous name sample_month_only).
Proof.
  apply (filter_chain_raises_for_a_key_column june_day1_hour9 sample_month_only).
  vm_compute. reflexivity.
Defined.

Lemma filter_chain_reads_ticked_columns_only_sample :
  exists s, filter_chain june sample_month_only = Ok s.
Proof.
  apply filter_chain_reads_ticked_columns_only.
  - eexists. split; reflexivity.
  - intros H. discriminate H.
  - intros H. discriminate H.
Defined.

Lemma equality_filters_commute_and_repeat_sample :
  (fd ← filter_eq "month" (Some (VFloat 6)) sample;
   filter_eq "day_of_week" (Some (VFloat 1)) fd)
  = (fd ← filter_eq "day_of_week" (Some (VFloat 1)) sample;
     filter_eq "month" (Some (VFloat 6)) fd)
  /\ (fd ← filter_eq "month" (Some (VFloat 6)) sample;
      filter_eq "month" (Some (VFloat 6)) fd)
     = filter_eq "month" (Some (VFloat 6)) sample.
Proof.
  apply equality_filters_commute_and_repeat; eexists; reflexivity.
Defined.

Lemma derive_keeps_other_columns_sample :
  exists df',
    derive decimal quiet quiet WriteThrough 2 sample = Ok df'
    /\ length (rows df') = length (rows sample)
    /\ columns df' = add_column "anomaly_score" (add_column "anomaly" (columns sample))
    /\ forall n k r r',
         n <> "truth" -> n <> "predictions" -> n <> "anomaly" ->
         n <> "anomaly_score" ->
         rows sample !! k = Some r -> rows df' !! k = Some r' ->
         field df' n r' = field sample n r.
Proof.
  exact (derive_keeps_other_columns decimal quiet quiet WriteThrough 2 sample
           sample_rectangular sample_has_row
           sample_truth_number_or_text sample_predictions_number_or_text
           (quiet_renders WriteThrough 2 sample)).
Defined.

Lemma derive_raises_for_a_missing_column_sample :
  (KeyError "truth" = KeyError "truth" /\ ~ has_column "truth" sample_no_truth)
  \/ (KeyError "truth" = KeyError "predictions" /\ has_column "truth" sample_no_truth
      /\ ~ has_column "predictions" sample_no_truth)
  \/ (exists fd,
        flag_anomalies decimal WriteThrough 2 sample_no_truth = Ok fd
        /\ (quiet fd = Raise (KeyError "truth")
            \/ (quiet fd = Ok tt /\ quiet fd = Raise (KeyError "truth")))).
Proof.
  apply (derive_raises_for_a_missing_column decimal quiet quiet WriteThrough 2
           sample_no_truth).
  - unfold rectangular, sample_no_truth. simpl. repeat constructor.
  - discriminate.
  - intros s Hs. discriminate Hs.
  - intros s [= <-]. repeat constructor.
  - vm_compute. reflexivity.
Defined.

Lemma no_value_is_missing_after_coercion_sample :
  exists df',
    derive decimal quiet quiet WriteThrough 2 sample = Ok df'
    /\ length (rows df') = length (rows sample)
    /\ forall r', r' ∈ rows df' ->
         present df' "truth" r' /\ present df' "predictions" r'.
Proof.
  exact (no_value_is_missing_after_coercion decimal quiet quiet 2 sample
           sample_rectangular sample_has_row
           sample_truth_number_or_text sample_predictions_number_or_text
           (quiet_renders WriteThrough 2 sample)).
Defined.

Lemma first_flag_is_final_flag_sample :
  exists df1 df2 t p a,
    flag_anomalies decimal WriteThrough 2 sample = Ok df1
    /\ flag_anomalies decimal WriteThrough 2 df1 = Ok df1
    /\ derive decimal quiet quiet WriteThrough 2 sample = Ok df2
    /\ get_col "truth" df1 = Ok t /\ get_col "truth" df2 = Ok t
    /\ get_col "predictions" df1 = Ok p /\ get_col "predictions" df2 = Ok p
    /\ get_col "anomaly" df1 = Ok a /\ get_col "anomaly" df2 = Ok a.
Proof.
  exact (first_flag_is_final_flag decimal quiet quiet WriteThrough 2 sample
           sample_rectangular sample_has_row
           sample_truth_number_or_text sample_predictions_number_or_text
           (quiet_renders WriteThrough 2 sample)).
Defined.

Lemma sample_nodes_has_row : rows sample_nodes <> [].
Proof. discriminate. Defined.

Lemma sample_nodes_truth_number_or_text : number_or_text "truth" sample_nodes.
Proof.
  split; [exact sample_nodes_has_truth |]. intros s [= <-]. repeat constructor.
Defined.

Lemma sample_nodes_predictions_number_or_text :
  number_or_text "predictions" sample_nodes.
Proof.
  split; [exact sample_nodes_has_predictions |]. intros s [= <-]. repeat constructor.
Defined.

Lemma sample_nodes_small (name : string) :
  name ∈ ["truth"; "predictions"] -> small_numbers decimal name sample_nodes.
Proof.
  intros H.
  repeat (apply elem_of_cons in H as [-> | H];
          [intros s [= <-]; repeat constructor |]).
  inversion H.
Defined.

Lemma anomalies_are_the_flagged_rows_sample :
  exists df1 a,
    flag_anomalies decimal WriteThrough 2 sample_nodes = Ok df1
    /\ flag_anomalies decimal WriteThrough 2 df1 = Ok df1
    /\ anomalies_of df1 = Ok a
    /\ columns a = columns df1
    /\ rows a = List.filter (flagged df1) (rows df1)
    /\ forall r, r ∈ rows a ->
         exists t p,
           field a "truth" r = Some (VFloat t)
           /\ field a "predictions" r = Some (VFloat p)
           /\ (2 <? abs (t - p))%float = true.
Proof.
  exact (anomalies_are_the_flagged_rows decimal WriteThrough 2 sample_nodes
           sample_nodes_rectangular sample_nodes_has_row
           sample_nodes_truth_number_or_text sample_nodes_predictions_number_or_text
           (sample_nodes_small "truth" ltac:(repeat constructor))
           (sample_nodes_small "predictions" ltac:(repeat constructor))).
Defined.

(** At threshold 2 the anomalies of [sample_nodes] are nodes 1, 2, 3 and 4;
    node 5, with a score of 0.5, is not among them. *)
Example sample_nodes_anomalies :
  (a ← anomalies_of sample_nodes_flagged; Ok (map (cell 0) (rows a)))
  = Ok [VFloat 1; VFloat 2; VFloat 3; VFloat 4].
Proof. vm_compute. reflexivity. Qed.

Lemma higher_threshold_fewer_anomalies_sample :
  exists df_low df_high a_low a_high,
    flag_anomalies decimal WriteThrough 2 sample_nodes = Ok df_low
    /\ anomalies_of df_low = Ok a_low
    /\ flag_anomalies decimal WriteThrough 4 sample_nodes = Ok df_high
    /\ anomalies_of df_high = Ok a_high
    /\ length (rows a_high) <= length (rows a_low).
Proof.
  apply (higher_threshold_fewer_anomalies decimal WriteThrough 2 4 sample_nodes
           sample_nodes_rectangular sample_nodes_has_row
           sample_nodes_truth_number_or_text sample_nodes_predictions_number_or_text).
  reflexivity.
Defined.

Lemma sample_nodes_has_detail_columns :
  forall n, n ∈ detail_columns -> has_column n sample_nodes.
Proof.
  intros n Hn. unfold detail_columns in Hn.
  repeat (apply elem_of_cons in Hn as [-> | Hn]; [eexists; reflexivity |]).
  inversion Hn.
Defined.

Lemma anomaly_details_shows_the_listed_columns_sample :
  exists d,
    anomaly_details sample_nodes = Ok d
    /\ columns d = detail_columns
    /\ length (rows d) = length (rows sample_nodes)
    /\ forall k r, rows sample_nodes !! k = Some r ->
         exists r',
           rows d !! k = Some r'
           /\ length r' = length detail_columns
           /\ forall n, n ∈ detail_columns -> field d n r' = field sample_nodes n r.
Proof.
  exact (anomaly_details_shows_the_listed_columns sample_nodes
           sample_nodes_has_detail_columns).
Defined.

Lemma anomaly_details_raises_for_a_missing_column_sample :
  exists n,
    KeyError "spatial_cluster_x" = KeyError n
    /\ n ∈ detail_columns /\ ~ has_column n sample.
Proof.
  apply (anomaly_details_raises_for_a_missing_column sample).
  vm_compute. reflexivity.
Defined.

Lemma anomaly_summary_counts_every_clustered_row_sample :
  exists g,
    anomaly_summary sample_nodes = Ok g
    /\ list_sum (map snd g) = length (dropna [VFloat 0; VFloat 1; VFloat 0; NaN; VFloat 1])
    /\ distinct (map fst g) = true
    /\ forall k n, (k, n) ∈ g ->
         isna k = false /\ 1 <= n
         /\ n = length (List.filter
                          (fun r => keeps sample_nodes "spatial_cluster_x" (Some k) r)
                          (rows sample_nodes)).
Proof.
  apply (anomaly_summary_counts_every_clustered_row sample_nodes
           [VFloat 0; VFloat 1; VFloat 0; NaN; VFloat 1]).
  reflexivity.
Defined.

(** The summary of [sample_nodes]: two rows in cluster 0, two in cluster 1,
    the row with no cluster in neither. *)
Example sample_nodes_summary :
  anomaly_summary sample_nodes = Ok [(VFloat 0, 2); (VFloat 1, 2)].
Proof. vm_compute. reflexivity. Qed.

Lemma assign_then_read_sample :
  let s := [VBool true; VBool true; VBool false; VBool false; VBool true] in
  get_col "anomaly" (set_col "anomaly" s sample) = Ok s
  /\ (forall n, n <> "anomaly" ->
                get_col n (set_col "anomaly" s sample) = get_col n sample)
  /\ columns (set_col "anomaly" s sample) = add_column "anomaly" (columns sample)
  /\ rectangular (set_col "anomaly" s sample)
  /\ set_col "anomaly" s (set_col "anomaly" s sample) = set_col "anomaly" s sample.
Proof.
  apply (assign_then_read "anomaly" _ sample sample_rectangular). reflexivity.
Defined.
